(** * Arabic Tutor API: the request handlers of [app.py] and their quota logic

    A shallow embedding of the Flask handlers [create_checkout],
    [check_subscription], [chat] and of the helper
    [check_user_has_subscription], followed by the properties of the
    free-tier quota that the specification states about them.

    The module-level dictionary [user_usage] is a [gmap string Z] threaded
    through every handler.  The outbound calls (Stripe, the completion API),
    the clock and the process environment are the fields of a record [World]:
    a handler run asks each of them at most once, so one answer per request
    is all a run can observe.  Every outbound call and every write to
    [user_usage] is logged, in program order, in a trace of [event]s. *)

From Stdlib Require Import ZArith String Ascii List Bool Lia.
From stdpp Require Import base option gmap strings list fin_maps.

Local Open Scope string_scope.
Local Open Scope list_scope.
Local Open Scope Z_scope.

(** ** Values exchanged with the outside *)

(** What [jsonify] is given: the handlers only build flat objects whose
    fields are booleans, integers, strings or [None]. *)
Inductive json : Type :=
| JNull
| JBool (b : bool)
| JNum (n : Z)
| JStr (s : string).

(** A Flask return value: the [jsonify]'d object and the status code. *)
Record response : Type := Response {
  body : list (string * json);
  status : Z
}.

(** [jsonify(obj)] alone answers 200; [jsonify(obj), code] answers [code]. *)
Definition jsonify (obj : list (string * json)) : response := Response obj 200.

Definition jsonify_code (obj : list (string * json)) (code : Z) : response :=
  Response obj code.

(** [field k r] is the value the response body holds under key [k]. *)
Fixpoint assoc (k : string) (obj : list (string * json)) : option json :=
  match obj with
  | [] => None
  | (k', v) :: rest => if String.eqb k k' then Some v else assoc k rest
  end.

Definition field (k : string) (r : response) : option json := assoc k (body r).

(** The exceptions the handlers tell apart: [anthropic.APIError] has an
    [except] clause of its own in [chat]; everything else is caught as
    [Exception].  Both carry the text that [str(e)] yields. *)
Inductive exn : Type :=
| APIError (msg : string)
| Exception (msg : string).

Definition str (e : exn) : string :=
  match e with APIError m => m | Exception m => m end.

(** The answer of an outbound call. *)
Inductive result (A : Type) : Type :=
| Ok (a : A)
| Err (e : exn).

Arguments Ok {A} a.

Arguments Err {A} e.

Record message : Type := Message { role : string; content : string }.

Record customer : Type := Customer { customer_id : string }.

Record subscription : Type := Subscription { subscription_status : string }.

(** The part of [datetime.now()] that ['%Y-%m-%d'] prints. *)
Record datetime : Type := Datetime { year : Z; month : Z; day : Z }.

(** Arguments of [stripe.checkout.Session.create]. *)
Record session_args : Type := SessionArgs {
  line_item_price : string;
  success_url : string;
  cancel_url : string;
  customer_email : option string
}.

Inductive event : Type :=
| CustomerList (email : string)
| SubscriptionList (customer : string)
| SessionCreate (args : session_args)
| MessagesCreate (max_tokens : Z) (system : string) (messages : list message)
| UsageStore (key : string) (value : Z).

(** Everything outside the process, as one request sees it. *)
Record World : Type := {
  now : datetime;
  environ : gmap string string;
  stripe_customer_list : string -> result (list customer);
  stripe_subscription_list : string -> result (list subscription);
  stripe_session_create : session_args -> result string;
  client_messages_create : Z -> string -> list message -> result (list string)
}.

(** ** [strftime('%Y-%m-%d')] *)

Definition digit (n : Z) : ascii := ascii_of_N (Z.to_N (48 + n mod 10)).

Definition two_digits (n : Z) (rest : string) : string :=
  String (digit (n / 10)) (String (digit n) rest).

Definition four_digits (n : Z) (rest : string) : string :=
  String (digit (n / 1000)) (String (digit (n / 100)) (two_digits n rest)).

(** Zero-padded fields, which is what the C library prints for the years
    [datetime.now()] can return on a running system (four digits). *)
Definition strftime_Ymd (d : datetime) : string :=
  four_digits (year d) (String "-" (two_digits (month d) (String "-" (two_digits (day d) "")))).

Definition wf_datetime (d : datetime) : Prop :=
  1000 <= year d <= 9999 /\ 1 <= month d <= 12 /\ 1 <= day d <= 31.

(** ** Handler computations *)

(** How a block of handler code ends: it falls through with a value, it
    executes [return r], or it raises. *)
Inductive outcome (A : Type) : Type :=
| Value (a : A)
| Return (r : response)
| Raise (e : exn).

Arguments Value {A} a.

Arguments Return {A} r.

Arguments Raise {A} e.

(** A block reads the world, updates [user_usage] and logs events. *)
Definition Handler (A : Type) : Type :=
  World -> gmap string Z -> outcome A * gmap string Z * list event.

Definition ret {A} (a : A) : Handler A := fun _ u => (Value a, u, []).

Definition return_ {A} (r : response) : Handler A := fun _ u => (Return r, u, []).

Definition raise {A} (e : exn) : Handler A := fun _ u => (Raise e, u, []).

Definition bind {A B} (m : Handler A) (k : A -> Handler B) : Handler B :=
  fun w u =>
    match m w u with
    | (Value a, u1, t1) =>
        match k a w u1 with (o, u2, t2) => (o, u2, t1 ++ t2) end
    | (Return r, u1, t1) => (Return r, u1, t1)
    | (Raise e, u1, t1) => (Raise e, u1, t1)
    end.

Notation "'let*' x ':=' m 'in' k" := (bind m (fun x => k))
  (at level 10, x name, m at level 100, k at level 200).

Notation "m ';;' k" := (bind m (fun _ => k))
  (at level 100, k at level 200, right associativity).

(** [try: body except Exception as e: h e], where [body] yields a value. *)
Definition try_value {A} (body : Handler A) (h : exn -> Handler A) : Handler A :=
  fun w u =>
    match body w u with
    | (Raise e, u1, t1) =>
        match h e w u1 with (o, u2, t2) => (o, u2, t1 ++ t2) end
    | other => other
    end.

(** A whole route function: its body ends by [return] or by an exception
    that the [except] clauses turn into a response. *)
Definition route (body : Handler response) (except : exn -> response)
  (w : World) (u : gmap string Z) : response * gmap string Z * list event :=
  match body w u with
  | (Value r, u1, t) => (r, u1, t)
  | (Return r, u1, t) => (r, u1, t)
  | (Raise e, u1, t) => (except e, u1, t)
  end.

(** Outbound calls: log the call, then answer as the world does. *)
Definition call {A} (ev : event) (answer : World -> result A) : Handler A :=
  fun w u =>
    match answer w with
    | Ok a => (Value a, u, [ev])
    | Err e => (Raise e, u, [ev])
    end.

Definition Customer_list (email : string) : Handler (list customer) :=
  call (CustomerList email) (fun w => stripe_customer_list w email).

Definition Subscription_list (cid : string) : Handler (list subscription) :=
  call (SubscriptionList cid) (fun w => stripe_subscription_list w cid).

Definition Session_create (args : session_args) : Handler string :=
  call (SessionCreate args) (fun w => stripe_session_create w args).

Definition messages_create (max_tokens : Z) (system : string)
  (messages : list message) : Handler (list string) :=
  call (MessagesCreate max_tokens system messages)
       (fun w => client_messages_create w max_tokens system messages).

(** [datetime.now().strftime('%Y-%m-%d')] *)
Definition today_Ymd : Handler string := fun w u => (Value (strftime_Ymd (now w)), u, []).

(** [os.environ.get(name)] *)
Definition environ_get (name : string) : Handler (option string) :=
  fun w u => (Value (environ w !! name), u, []).

(** [user_usage.get(key, 0)] *)
Definition usage_get (key : string) : Handler Z :=
  fun _ u => (Value (default 0 (u !! key)), u, []).

(** [user_usage[key] = v] *)
Definition usage_set (key : string) (v : Z) : Handler unit :=
  fun _ u => (Value tt, <[key := v]> u, [UsageStore key v]).

(** [user_usage[key]], a [KeyError] when the key is absent. *)
Definition usage_index (key : string) : Handler Z :=
  fun _ u =>
    match u !! key with
    | Some v => (Value v, u, [])
    | None => (Raise (Exception ("'" +:+ key +:+ "'")), u, [])
    end.

(** [xs[0]], an [IndexError] on the empty list. *)
Definition index0 {A} (xs : list A) : Handler A :=
  match xs with
  | x :: _ => ret x
  | [] => raise (Exception "list index out of range")
  end.

(** Python's truth value of [None], [''] and the non-empty strings. *)
Definition truthy (o : option string) : bool :=
  match o with
  | Some s => negb (String.eqb s "")
  | None => false
  end.

(** ** Request bodies

    [request.json] as the handlers read it: each field is [None] when the
    key is absent from the body. *)

Record checkout_data : Type := CheckoutData {
  checkout_email : option string;
  checkout_plan : option string
}.

Record subscription_data : Type := SubscriptionData {
  subscription_email : option string
}.

Record chat_data : Type := ChatData {
  chat_messages : option (list message);
  chat_system : option string;
  chat_max_tokens : option Z;
  chat_user_email : option string
}.

(** ** [/api/create-checkout] *)

Definition create_checkout_body (data : checkout_data) : Handler response :=
  let user_email := checkout_email data in
  let plan := default "premium" (checkout_plan data) in
  let* premium := environ_get "STRIPE_PRICE_PREMIUM" in
  let* premium_voice := environ_get "STRIPE_PRICE_PREMIUM_VOICE" in
  let price_ids : gmap string (option string) :=
    {[ "premium" := premium; "premium_voice" := premium_voice ]} in
  let price_id := default None (price_ids !! plan) in
  if negb (truthy price_id) then
    return_ (jsonify_code [("error", JStr "Invalid plan selected")] 400)
  else
    let* frontend_url := environ_get "FRONTEND_URL" in
    let domain := default "http://localhost:8000" frontend_url in
    let* checkout_session_url :=
      Session_create
        {| line_item_price := default "" price_id;
           success_url := domain +:+ "/success.html?session_id={CHECKOUT_SESSION_ID}";
           cancel_url := domain;
           customer_email := user_email |} in
    return_ (jsonify [("checkout_url", JStr checkout_session_url)]).

Definition create_checkout (data : checkout_data) :=
  route (create_checkout_body data)
        (fun e => jsonify_code [("error", JStr (str e))] 500).

(** ** [/api/check-subscription] *)

Definition check_subscription_body (data : subscription_data) : Handler response :=
  let user_email := subscription_email data in
  if negb (truthy user_email) then
    return_ (jsonify [("has_subscription", JBool false); ("remaining_messages", JNum 10)])
  else
    let email := default "" user_email in
    let* customers := Customer_list email in
    match customers with
    | [] =>
        let* today := today_Ymd in
        let usage_key := email +:+ ":" +:+ today in
        let* current_usage := usage_get usage_key in
        let remaining := Z.max 0 (10 - current_usage) in
        return_ (jsonify [("has_subscription", JBool false);
                          ("remaining_messages", JNum remaining)])
    | customer :: _ =>
        let* subscriptions := Subscription_list (customer_id customer) in
        let has_active := 0 <? Z.of_nat (length subscriptions) in
        return_ (jsonify
          [("has_subscription", JBool has_active);
           ("subscription_status",
              match subscriptions with
              | s :: _ => JStr (subscription_status s)
              | [] => JNull
              end);
           ("remaining_messages", if has_active then JStr "unlimited" else JNum 0)])
    end.

Definition check_subscription (data : subscription_data) :=
  route (check_subscription_body data)
        (fun e => jsonify_code [("error", JStr (str e))] 500).

(** ** [check_user_has_subscription] *)

Definition check_user_has_subscription (email : string) : Handler bool :=
  if String.eqb email "anonymous" then ret false
  else
    try_value
      (let* customers := Customer_list email in
       match customers with
       | [] => ret false
       | customer :: _ =>
           let* subscriptions := Subscription_list (customer_id customer) in
           ret (0 <? Z.of_nat (length subscriptions))
       end)
      (fun _ => ret false).

(** ** [/api/chat] *)

Definition limit_reached : response :=
  jsonify_code
    [("success", JBool false);
     ("error", JStr "Daily limit reached! Upgrade to Premium for unlimited messages.");
     ("upgrade_required", JBool true);
     ("remaining_messages", JNum 0)]
    429.

Definition chat_success (assistant_message : string) (remaining : json) : response :=
  jsonify [("success", JBool true);
           ("message", JStr assistant_message);
           ("model", JStr "claude-sonnet-4-5-20250929");
           ("remaining_messages", remaining)].

(** The access gate, lines 140 to 161 of [chat]: it yields the value of
    [remaining], or leaves the handler with the 429 response. *)
Definition access_gate (user_email : string) : Handler json :=
  let* has_subscription := check_user_has_subscription user_email in
  if negb has_subscription && negb (String.eqb user_email "anonymous") then
    let* today := today_Ymd in
    let usage_key := user_email +:+ ":" +:+ today in
    let* current_usage := usage_get usage_key in
    if 10 <=? current_usage then
      return_ limit_reached
    else
      usage_set usage_key (current_usage + 1);;
      let* stored := usage_index usage_key in
      ret (JNum (10 - stored))
  else
    ret (JStr "unlimited").

Definition chat_body (data : chat_data) : Handler response :=
  let messages := default [] (chat_messages data) in
  let system_prompt := default "" (chat_system data) in
  let max_tokens := default 1024 (chat_max_tokens data) in
  let user_email := default "anonymous" (chat_user_email data) in
  match messages with
  | [] => return_ (jsonify_code [("error", JStr "No messages provided")] 400)
  | _ :: _ =>
      let* remaining := access_gate user_email in
      let* response_content := messages_create max_tokens system_prompt messages in
      let* assistant_message := index0 response_content in
      return_ (chat_success assistant_message remaining)
  end.

Definition chat_except (e : exn) : response :=
  match e with
  | APIError msg =>
      jsonify_code [("success", JBool false);
                    ("error", JStr ("Anthropic API error: " +:+ msg))] 500
  | Exception msg =>
      jsonify_code [("success", JBool false);
                    ("error", JStr ("Server error: " +:+ msg))] 500
  end.

Definition chat (data : chat_data) := route (chat_body data) chat_except.

(** ** Usage keys

    [f"{user_email}:{today}"].  The date part always has ten characters,
    which is what makes the string a faithful encoding of the pair. *)

Definition usage_key (user_email : string) (d : datetime) : string :=
  user_email +:+ ":" +:+ strftime_Ymd d.

(** ** Reading a handler run *)

Definition reply {A B C} (x : A * B * C) : A := fst (fst x).

Definition usage_of {A B C} (x : A * B * C) : B := snd (fst x).

Definition trace_of {A B C} (x : A * B * C) : C := snd x.

(** The run reached the Completion Provider. *)
Definition reaches_provider (t : list event) : Prop :=
  exists max_tokens system messages, In (MessagesCreate max_tokens system messages) t.

(** The run contacted the payment provider. *)
Definition contacts_stripe (t : list event) : Prop :=
  exists ev, In ev t /\
    match ev with
    | CustomerList _ | SubscriptionList _ | SessionCreate _ => True
    | _ => False
    end.

(** The run wrote to [user_usage]. *)
Definition writes_usage (t : list event) : Prop :=
  exists key value, In (UsageStore key value) t.

(** The identifier [chat] meters: ['anonymous'] when the body has no
    [user_email]. *)
Definition user_of (data : chat_data) : string :=
  default "anonymous" (chat_user_email data).

(** The body passes the handler's input validation. *)
Definition has_messages (data : chat_data) : bool :=
  match default [] (chat_messages data) with
  | [] => false
  | _ :: _ => true
  end.

(** What the Subscription Directory holds for [email]: a customer record
    whose list of active subscriptions is not empty. *)
Definition lookup_active (w : World) (email : string) : bool :=
  match stripe_customer_list w email with
  | Ok (c :: _) =>
      match stripe_subscription_list w (customer_id c) with
      | Ok (_ :: _) => true
      | _ => false
      end
  | _ => false
  end.

(** The calls [check_user_has_subscription] makes. *)
Definition lookup_trace (w : World) (email : string) : list event :=
  if String.eqb email "anonymous" then []
  else
    match stripe_customer_list w email with
    | Ok (c :: _) => [CustomerList email; SubscriptionList (customer_id c)]
    | _ => [CustomerList email]
    end.

(** The answer of [chat] once the gate has let the request through with
    [remaining]: lines 163 to 199. *)
Definition completion (w : World) (data : chat_data) (remaining : json) : response :=
  match client_messages_create w (default 1024 (chat_max_tokens data))
          (default "" (chat_system data)) (default [] (chat_messages data)) with
  | Ok (text :: _) => chat_success text remaining
  | Ok [] => chat_except (Exception "list index out of range")
  | Err e => chat_except e
  end.

Definition completion_call (data : chat_data) : event :=
  MessagesCreate (default 1024 (chat_max_tokens data))
    (default "" (chat_system data)) (default [] (chat_messages data)).

(** ** The process

    [user_usage = {}] at start-up; requests are served one after the other,
    each in the world it meets. *)

Inductive request : Type :=
| CreateCheckout (data : checkout_data)
| CheckSubscription (data : subscription_data)
| Chat (data : chat_data).

Definition handle (req : request)
  : World -> gmap string Z -> response * gmap string Z * list event :=
  match req with
  | CreateCheckout data => create_checkout data
  | CheckSubscription data => check_subscription data
  | Chat data => chat data
  end.

Fixpoint serve (u : gmap string Z) (h : list (World * request))
  : list (response * list event) * gmap string Z :=
  match h with
  | [] => ([], u)
  | (w, req) :: rest =>
      let x := handle req w u in
      let y := serve (usage_of x) rest in
      ((reply x, trace_of x) :: fst y, snd y)
  end.

Definition user_usage_after (h : list (World * request)) : gmap string Z :=
  snd (serve ∅ h).

(** The request goes through the metering branch of [chat]: it carries
    messages, names a user, and the directory shows no active subscription. *)
Definition metered (w : World) (data : chat_data) : bool :=
  has_messages data
  && negb (String.eqb (user_of data) "anonymous")
  && negb (lookup_active w (user_of data)).

#[global] Instance datetime_eq_dec : EqDecision datetime.
Proof. solve_decision. Defined.

(** The number of earlier requests of the history that went through the
    metering branch for [email] on day [d]. *)
Fixpoint metered_requests (email : string) (d : datetime) (h : list (World * request)) : Z :=
  match h with
  | [] => 0
  | (w, Chat data) :: rest =>
      (if metered w data && bool_decide (user_of data = email) && bool_decide (now w = d)
       then 1 else 0) + metered_requests email d rest
  | _ :: rest => metered_requests email d rest
  end.

Definition wf_history (h : list (World * request)) : Prop :=
  Forall (fun x => wf_datetime (now (fst x))) h.

(** The completion call of this request answers with [text]. *)
Definition completion_succeeds (w : World) (data : chat_data) (text : string) : Prop :=
  exists rest,
    client_messages_create w (default 1024 (chat_max_tokens data))
      (default "" (chat_system data)) (default [] (chat_messages data))
    = Ok (text :: rest).

(** The completion call of this request raises [e]. *)
Definition completion_raises (w : World) (data : chat_data) (e : exn) : Prop :=
  client_messages_create w (default 1024 (chat_max_tokens data))
    (default "" (chat_system data)) (default [] (chat_messages data))
  = Err e.

(** ** Example worlds and requests *)

Definition pi_day : datetime := Datetime 2025 3 14.

Definition next_day : datetime := Datetime 2025 3 15.

(** No customer record for anybody; the completion answers. *)
Definition free_world (d : datetime) : World :=
  {| now := d;
     environ := ∅;
     stripe_customer_list := fun _ => Ok [];
     stripe_subscription_list := fun _ => Ok [];
     stripe_session_create := fun _ => Ok "https://checkout.example/s1";
     client_messages_create := fun _ _ _ => Ok ["ahlan"] |}.

(** As [free_world], with the Completion Provider down. *)
Definition outage_world (d : datetime) : World :=
  {| now := d;
     environ := ∅;
     stripe_customer_list := fun _ => Ok [];
     stripe_subscription_list := fun _ => Ok [];
     stripe_session_create := fun _ => Ok "https://checkout.example/s1";
     client_messages_create := fun _ _ _ => Err (APIError "overloaded") |}.

(** Every email is a customer with an active subscription. *)
Definition subscriber_world (d : datetime) : World :=
  {| now := d;
     environ := ∅;
     stripe_customer_list := fun _ => Ok [Customer "cus_1"];
     stripe_subscription_list := fun _ => Ok [Subscription "active"];
     stripe_session_create := fun _ => Ok "https://checkout.example/s1";
     client_messages_create := fun _ _ _ => Ok ["ahlan"] |}.

(** Every email is a customer whose subscription has lapsed. *)
Definition lapsed_world (d : datetime) : World :=
  {| now := d;
     environ := ∅;
     stripe_customer_list := fun _ => Ok [Customer "cus_1"];
     stripe_subscription_list := fun _ => Ok [];
     stripe_session_create := fun _ => Ok "https://checkout.example/s1";
     client_messages_create := fun _ _ _ => Ok ["ahlan"] |}.

(** The payment provider cannot be reached. *)
Definition stripe_down_world (d : datetime) : World :=
  {| now := d;
     environ := ∅;
     stripe_customer_list := fun _ => Err (Exception "connection refused");
     stripe_subscription_list := fun _ => Err (Exception "connection refused");
     stripe_session_create := fun _ => Err (Exception "connection refused");
     client_messages_create := fun _ _ _ => Ok ["ahlan"] |}.

Definition hello (user_email : option string) : chat_data :=
  {| chat_messages := Some [Message "user" "marhaban"];
     chat_system := None;
     chat_max_tokens := None;
     chat_user_email := user_email |}.

Definition from_a : chat_data := hello (Some "a@x.com").

(** [n] chat requests of ["a@x.com"], all served in world [w]. *)
Definition requests_of_a (n : nat) (w : World) : list (World * request) :=
  replicate n (w, Chat from_a).

(** A history made of chat requests of the anonymous user only. *)
Definition anonymous_chat (x : World * request) : Prop :=
  exists data, snd x = Chat data /\ user_of data = "anonymous".

(** Every stored count lies between 1 and 10. *)
Definition bounded_usage (u : gmap string Z) : Prop :=
  forall k v, u !! k = Some v -> 1 <= v <= 10.

(** The plan selector resolves to a configured price identifier: it names
    one of the two plans and the environment variable of that plan holds a
    non-empty identifier. *)
Definition plan_configured (w : World) (plan : string) : Prop :=
  exists price_id, price_id <> "" /\
    ((plan = "premium" /\ environ w !! "STRIPE_PRICE_PREMIUM" = Some price_id) \/
     (plan = "premium_voice" /\ environ w !! "STRIPE_PRICE_PREMIUM_VOICE" = Some price_id)).

(** The environment of a deployment with both plans configured. *)
Definition shop_world : World :=
  {| now := pi_day;
     environ := {[ "STRIPE_PRICE_PREMIUM" := "price_basic";
                   "STRIPE_PRICE_PREMIUM_VOICE" := "price_voice" ]};
     stripe_customer_list := fun _ => Ok [];
     stripe_subscription_list := fun _ => Ok [];
     stripe_session_create := fun _ => Ok "https://checkout.example/s1";
     client_messages_create := fun _ _ _ => Ok ["ahlan"] |}.

(** ** Vocabulary of the further properties *)

(** The plan selector names a plan whose environment variable holds
    [price_id]. *)
Definition plan_price (w : World) (plan price_id : string) : Prop :=
  (plan = "premium" /\ environ w !! "STRIPE_PRICE_PREMIUM" = Some price_id) \/
  (plan = "premium_voice" /\ environ w !! "STRIPE_PRICE_PREMIUM_VOICE" = Some price_id).

(** What [create_checkout] hands to [stripe.checkout.Session.create]. *)
Definition checkout_args (w : World) (data : checkout_data) (price_id : string)
  : session_args :=
  {| line_item_price := price_id;
     success_url := default "http://localhost:8000" (environ w !! "FRONTEND_URL")
                    +:+ "/success.html?session_id={CHECKOUT_SESSION_ID}";
     cancel_url := default "http://localhost:8000" (environ w !! "FRONTEND_URL");
     customer_email := checkout_email data |}.

Definition is_completion_call (ev : event) : bool :=
  match ev with
  | MessagesCreate _ _ _ => true
  | _ => false
  end.

Definition provider_called (t : list event) : bool := existsb is_completion_call t.

(** Along the history [h] served from [u], the number of metered chat
    requests of [email] on day [d] whose reply and trace satisfy [sel]. *)
Fixpoint metered_runs (sel : response -> list event -> bool) (email : string)
  (d : datetime) (u : gmap string Z) (h : list (World * request)) : Z :=
  match h with
  | [] => 0
  | (w, req) :: rest =>
      let x := handle req w u in
      (match req with
       | Chat data =>
           if metered w data && bool_decide (user_of data = email)
              && bool_decide (now w = d) && sel (reply x) (trace_of x)
           then 1 else 0
       | _ => 0
       end) + metered_runs sel email d (usage_of x) rest
  end.

(** Metered requests of the user that reached the Completion Provider. *)
Definition completions_of (email : string) (d : datetime) (h : list (World * request)) : Z :=
  metered_runs (fun _ t => provider_called t) email d ∅ h.

(** Metered requests of the user that were answered 200. *)
Definition successes_of (email : string) (d : datetime) (h : list (World * request)) : Z :=
  metered_runs (fun r _ => status r =? 200) email d ∅ h.

(** A deployment with both plans configured whose payment provider is down. *)
Definition shop_down_world : World :=
  {| now := pi_day;
     environ := {[ "STRIPE_PRICE_PREMIUM" := "price_basic";
                   "STRIPE_PRICE_PREMIUM_VOICE" := "price_voice" ]};
     stripe_customer_list := fun _ => Err (Exception "connection refused");
     stripe_subscription_list := fun _ => Err (Exception "connection refused");
     stripe_session_create := fun _ => Err (Exception "connection refused");
     client_messages_create := fun _ _ _ => Ok ["ahlan"] |}.

(** The completion answers with an empty content list. *)
Definition empty_content_world (d : datetime) : World :=
  {| now := d;
     environ := ∅;
     stripe_customer_list := fun _ => Ok [];
     stripe_subscription_list := fun _ => Ok [];
     stripe_session_create := fun _ => Ok "https://checkout.example/s1";
     client_messages_create := fun _ _ _ => Ok [] |}.

(** A string of [n] letters. *)
Fixpoint letters (n : nat) : string :=
  match n with
  | O => ""
  | S n => String "x" (letters n)
  end.

(** An email longer than every key of [u]. *)
Definition unused_email (u : gmap string Z) : string :=
  letters (S (max_list (String.length ∘ fst <$> map_to_list u))).

(** * Properties *)

(** ** Usage keys determine the user and the day *)

Lemma append_nil (b : string) : "" +:+ b = b.
Proof. reflexivity. Qed.

Lemma append_cons (c : ascii) (a b : string) : String c a +:+ b = String c (a +:+ b).
Proof. reflexivity. Qed.

Lemma length_append (a b : string) :
  String.length (a +:+ b) = (String.length a + String.length b)%nat.
Proof.
  induction a as [|c a IH]; [reflexivity |].
  rewrite append_cons. simpl. now rewrite IH.
Qed.

Lemma append_inj_suffix (a1 a2 b1 b2 : string) :
  String.length b1 = String.length b2 ->
  a1 +:+ b1 = a2 +:+ b2 -> a1 = a2 /\ b1 = b2.
Proof.
  revert a2. induction a1 as [|c a1 IH]; intros [|c' a2] Hlen Heq;
    rewrite ?append_nil, ?append_cons in Heq.
  - auto.
  - subst b1. simpl in Hlen. rewrite length_append in Hlen. lia.
  - subst b2. simpl in Hlen. rewrite length_append in Hlen. lia.
  - injection Heq as -> Heq. destruct (IH a2 Hlen Heq) as [-> ->]. auto.
Qed.

Lemma digit_inj (x y : Z) : digit x = digit y -> x mod 10 = y mod 10.
Proof.
  unfold digit. intros H.
  assert (Hx : 0 <= x mod 10 < 10) by (apply Z.mod_pos_bound; lia).
  assert (Hy : 0 <= y mod 10 < 10) by (apply Z.mod_pos_bound; lia).
  apply (f_equal N_of_ascii) in H.
  rewrite !N_ascii_embedding in H by lia. lia.
Qed.

Lemma strftime_Ymd_length (d : datetime) : String.length (strftime_Ymd d) = 10%nat.
Proof. reflexivity. Qed.

Lemma strftime_Ymd_inj (d1 d2 : datetime) :
  wf_datetime d1 -> wf_datetime d2 ->
  strftime_Ymd d1 = strftime_Ymd d2 -> d1 = d2.
Proof.
  destruct d1 as [y1 m1 a1], d2 as [y2 m2 a2].
  unfold wf_datetime, strftime_Ymd, four_digits, two_digits; simpl.
  intros (Hy1 & Hm1 & Ha1) (Hy2 & Hm2 & Ha2) H.
  injection H as Y3 Y2 Y1 Y0 M1 M0 A1 A0.
  apply digit_inj in Y3, Y2, Y1, Y0, M1, M0, A1, A0.
  f_equal; Z.div_mod_to_equations; lia.
Qed.

Lemma usage_key_inj (e1 e2 : string) (d1 d2 : datetime) :
  wf_datetime d1 -> wf_datetime d2 ->
  usage_key e1 d1 = usage_key e2 d2 -> e1 = e2 /\ d1 = d2.
Proof.
  intros W1 W2 H. unfold usage_key in H.
  apply append_inj_suffix in H.
  2:{ rewrite !append_cons, !append_nil. reflexivity. }
  destruct H as [-> H]. rewrite !append_cons, !append_nil in H.
  split; [reflexivity |]. apply strftime_Ymd_inj; [assumption | assumption |].
  generalize dependent (strftime_Ymd d1). generalize (strftime_Ymd d2).
  intros s2 s1 H. now injection H.
Qed.

(** ** The handlers, case by case *)

Lemma check_user_has_subscription_eq (email : string) (w : World) (u : gmap string Z) :
  check_user_has_subscription email w u =
  (Value (negb (String.eqb email "anonymous") && lookup_active w email), u,
   lookup_trace w email).
Proof.
  unfold check_user_has_subscription, lookup_active, lookup_trace.
  destruct (String.eqb email "anonymous"); [reflexivity |].
  unfold try_value, bind, Customer_list, Subscription_list, call, ret. simpl.
  destruct (stripe_customer_list w email) as [[|c cs]|e]; try reflexivity.
  destruct (stripe_subscription_list w (customer_id c)) as [[|s ss]|e]; reflexivity.
Qed.

Lemma access_gate_unmetered (email : string) (w : World) (u : gmap string Z) :
  String.eqb email "anonymous" || lookup_active w email = true ->
  access_gate email w u = (Value (JStr "unlimited"), u, lookup_trace w email).
Proof.
  intros H. unfold access_gate, bind.
  rewrite check_user_has_subscription_eq.
  destruct (String.eqb email "anonymous"), (lookup_active w email);
    try discriminate; simpl; unfold ret; now rewrite app_nil_r.
Qed.

Lemma access_gate_limit (email : string) (w : World) (u : gmap string Z) :
  String.eqb email "anonymous" = false ->
  lookup_active w email = false ->
  10 <= default 0 (u !! usage_key email (now w)) ->
  access_gate email w u = (Return limit_reached, u, lookup_trace w email).
Proof.
  intros Ha Hs Hc. unfold access_gate, bind.
  rewrite check_user_has_subscription_eq, Ha, Hs. simpl.
  fold (usage_key email (now w)).
  destruct (Z.leb_spec 10 (default 0 (u !! usage_key email (now w)))); [| lia].
  unfold return_. now rewrite app_nil_r.
Qed.

Lemma access_gate_admit (email : string) (w : World) (u : gmap string Z) :
  String.eqb email "anonymous" = false ->
  lookup_active w email = false ->
  default 0 (u !! usage_key email (now w)) < 10 ->
  access_gate email w u =
  (Value (JNum (10 - (default 0 (u !! usage_key email (now w)) + 1))),
   <[usage_key email (now w) := default 0 (u !! usage_key email (now w)) + 1]> u,
   lookup_trace w email
     ++ [UsageStore (usage_key email (now w))
           (default 0 (u !! usage_key email (now w)) + 1)]).
Proof.
  intros Ha Hs Hc. unfold access_gate, bind.
  rewrite check_user_has_subscription_eq, Ha, Hs. simpl.
  fold (usage_key email (now w)).
  destruct (Z.leb_spec 10 (default 0 (u !! usage_key email (now w)))); [lia |].
  unfold usage_set, usage_index, ret. simpl.
  rewrite lookup_insert_eq. simpl. rewrite ?app_nil_r. reflexivity.
Qed.

Lemma chat_no_messages (data : chat_data) (w : World) (u : gmap string Z) :
  has_messages data = false ->
  chat data w u = (jsonify_code [("error", JStr "No messages provided")] 400, u, []).
Proof.
  unfold has_messages, chat, route, chat_body.
  destruct (default [] (chat_messages data)); [reflexivity | discriminate].
Qed.

Lemma chat_after_gate (data : chat_data) (w : World) (u : gmap string Z) :
  has_messages data = true ->
  chat data w u =
  match access_gate (user_of data) w u with
  | (Value remaining, u1, t1) => (completion w data remaining, u1, t1 ++ [completion_call data])
  | (Return r, u1, t1) => (r, u1, t1)
  | (Raise e, u1, t1) => (chat_except e, u1, t1)
  end.
Proof.
  unfold has_messages, chat, route, chat_body, completion, completion_call, user_of.
  destruct (default [] (chat_messages data)) as [|m ms]; [discriminate |]. intros _.
  unfold bind at 1.
  destruct (access_gate _ w u) as [[[remaining|r|e] u1] t1]; try reflexivity.
  unfold bind, messages_create, call, index0, ret, raise, return_.
  destruct (client_messages_create w _ _ _) as [[|text rest]|e]; simpl;
    rewrite ?app_nil_r; reflexivity.
Qed.

Lemma create_checkout_usage (data : checkout_data) (w : World) (u : gmap string Z) :
  usage_of (create_checkout data w u) = u.
Proof.
  unfold create_checkout, route, create_checkout_body, bind, environ_get,
    Session_create, call, return_, usage_of. simpl.
  destruct (negb _); [reflexivity |]. simpl.
  destruct (stripe_session_create w _); reflexivity.
Qed.

Lemma check_subscription_usage (data : subscription_data) (w : World) (u : gmap string Z) :
  usage_of (check_subscription data w u) = u.
Proof.
  unfold check_subscription, route, check_subscription_body, bind,
    Customer_list, Subscription_list, call, return_, usage_of,
    today_Ymd, usage_get.
  destruct (negb _); [reflexivity |]. simpl.
  destruct (stripe_customer_list w _) as [[|c cs]|e]; try reflexivity. simpl.
  destruct (stripe_subscription_list w _) as [ss|e]; reflexivity.
Qed.

(** The one write a [chat] run can make. *)
Lemma chat_usage (data : chat_data) (w : World) (u : gmap string Z) :
  usage_of (chat data w u) =
  if metered w data && (default 0 (u !! usage_key (user_of data) (now w)) <? 10)
  then <[usage_key (user_of data) (now w) :=
           default 0 (u !! usage_key (user_of data) (now w)) + 1]> u
  else u.
Proof.
  unfold metered. destruct (has_messages data) eqn:Hm; simpl.
  2:{ now rewrite chat_no_messages. }
  rewrite chat_after_gate by assumption.
  destruct (String.eqb (user_of data) "anonymous") eqn:Ha; simpl.
  { rewrite access_gate_unmetered by (rewrite Ha; reflexivity). reflexivity. }
  destruct (lookup_active w (user_of data)) eqn:Hs; simpl.
  { rewrite access_gate_unmetered by (rewrite Ha, Hs; reflexivity). reflexivity. }
  destruct (Z.ltb_spec (default 0 (u !! usage_key (user_of data) (now w))) 10).
  - rewrite access_gate_admit by assumption. reflexivity.
  - rewrite access_gate_limit by assumption. reflexivity.
Qed.

(** Seen from one key: a metered request of that user on that day moves the
    count up by one until it is ten; nothing else moves it. *)
Lemma chat_usage_lookup (email : string) (d : datetime) (data : chat_data)
  (w : World) (u : gmap string Z) :
  wf_datetime d -> wf_datetime (now w) ->
  default 0 (usage_of (chat data w u) !! usage_key email d) =
  if metered w data && bool_decide (user_of data = email) && bool_decide (now w = d)
     && (default 0 (u !! usage_key email d) <? 10)
  then default 0 (u !! usage_key email d) + 1
  else default 0 (u !! usage_key email d).
Proof.
  intros Wd Ww. rewrite chat_usage.
  destruct (metered w data); simpl; [| reflexivity].
  destruct (decide (user_of data = email /\ now w = d)) as [[-> ->]|Hne].
  - rewrite !bool_decide_eq_true_2 by reflexivity. simpl.
    destruct (_ <? 10); [| reflexivity].
    now rewrite lookup_insert_eq.
  - assert (Hk : usage_key (user_of data) (now w) <> usage_key email d).
    { intros Hk. apply usage_key_inj in Hk; tauto. }
    assert (Hb : bool_decide (user_of data = email) && bool_decide (now w = d) = false).
    { apply andb_false_iff. rewrite !bool_decide_eq_false.
      destruct (decide (user_of data = email)); [right | left]; tauto. }
    rewrite Hb. simpl.
    destruct (_ <? 10); [| reflexivity].
    now rewrite lookup_insert_ne.
Qed.

Lemma handle_usage_lookup (email : string) (d : datetime) (req : request)
  (w : World) (u : gmap string Z) :
  wf_datetime d -> wf_datetime (now w) ->
  0 <= default 0 (u !! usage_key email d) <= 10 ->
  default 0 (usage_of (handle req w u) !! usage_key email d) =
  Z.min 10 (default 0 (u !! usage_key email d) + metered_requests email d [(w, req)]).
Proof.
  intros Wd Ww Hc. destruct req as [data|data|data]; simpl.
  - rewrite create_checkout_usage. lia.
  - rewrite check_subscription_usage. lia.
  - rewrite chat_usage_lookup by assumption.
    destruct (metered w data && _ && _); simpl.
    + destruct (Z.ltb_spec (default 0 (u !! usage_key email d)) 10); lia.
    + lia.
Qed.

Lemma metered_requests_nonneg (email : string) (d : datetime) (h : list (World * request)) :
  0 <= metered_requests email d h.
Proof.
  induction h as [|[w [data|data|data]] rest IH]; simpl; try lia.
  destruct (_ && _ && _); lia.
Qed.

(** The stored count after a history: the number of metered requests,
    capped at ten. *)
Lemma serve_usage_lookup (email : string) (d : datetime) (h : list (World * request)) :
  forall u : gmap string Z,
  wf_datetime d -> wf_history h ->
  0 <= default 0 (u !! usage_key email d) <= 10 ->
  default 0 (snd (serve u h) !! usage_key email d) =
  Z.min 10 (default 0 (u !! usage_key email d) + metered_requests email d h).
Proof.
  induction h as [|[w req] rest IH]; intros u Wd Wh Hc.
  - simpl. lia.
  - apply Forall_cons in Wh as [Ww Wrest]. simpl in Ww.
    change (snd (serve u ((w, req) :: rest)))
      with (snd (serve (usage_of (handle req w u)) rest)).
    pose proof (handle_usage_lookup email d req w u Wd Ww Hc) as Hstep.
    pose proof (metered_requests_nonneg email d [(w, req)]) as H1.
    pose proof (metered_requests_nonneg email d rest) as H2.
    rewrite IH by (try assumption; lia).
    rewrite Hstep.
    replace (metered_requests email d ((w, req) :: rest))
      with (metered_requests email d [(w, req)] + metered_requests email d rest)
      by (destruct req; simpl; lia).
    lia.
Qed.

Lemma user_usage_after_lookup (email : string) (d : datetime) (h : list (World * request)) :
  wf_datetime d -> wf_history h ->
  default 0 (user_usage_after h !! usage_key email d) =
  Z.min 10 (metered_requests email d h).
Proof.
  intros Wd Wh. unfold user_usage_after.
  rewrite serve_usage_lookup by (try assumption; rewrite lookup_empty; simpl; lia).
  rewrite lookup_empty. reflexivity.
Qed.

Lemma completion_ok (w : World) (data : chat_data) (remaining : json) (text : string) :
  completion_succeeds w data text ->
  completion w data remaining = chat_success text remaining.
Proof. intros [rest H]. unfold completion. now rewrite H. Qed.

Lemma completion_err (w : World) (data : chat_data) (remaining : json) (e : exn) :
  completion_raises w data e ->
  completion w data remaining = chat_except e.
Proof. intros H. unfold completion. now rewrite H. Qed.

Lemma chat_except_status (e : exn) :
  status (chat_except e) = 500 /\ field "remaining_messages" (chat_except e) = None.
Proof. destruct e; split; reflexivity. Qed.

Lemma lookup_trace_events (w : World) (email : string) (ev : event) :
  In ev (lookup_trace w email) ->
  exists x, ev = CustomerList x \/ ev = SubscriptionList x.
Proof.
  unfold lookup_trace.
  destruct (String.eqb email "anonymous"); [intros [] |].
  destruct (stripe_customer_list w email) as [[|c cs]|e]; simpl; intros H;
    repeat (destruct H as [<-|H]; [eauto |]); destruct H.
Qed.

Lemma lookup_trace_no_provider (w : World) (email : string) :
  ~ reaches_provider (lookup_trace w email).
Proof.
  intros (mt & sys & ms & H).
  apply lookup_trace_events in H as [x [H|H]]; discriminate.
Qed.

Lemma lookup_trace_no_write (w : World) (email : string) :
  ~ writes_usage (lookup_trace w email).
Proof.
  intros (k & v & H).
  apply lookup_trace_events in H as [x [H|H]]; discriminate.
Qed.

Lemma reaches_provider_snoc (t : list event) (data : chat_data) :
  reaches_provider (t ++ [completion_call data]).
Proof.
  unfold reaches_provider, completion_call. do 3 eexists.
  apply in_or_app. right. left. reflexivity.
Qed.

Lemma chat_unmetered (data : chat_data) (w : World) (u : gmap string Z) :
  has_messages data = true ->
  String.eqb (user_of data) "anonymous" || lookup_active w (user_of data) = true ->
  chat data w u =
  (completion w data (JStr "unlimited"), u,
   lookup_trace w (user_of data) ++ [completion_call data]).
Proof.
  intros Hm H. rewrite chat_after_gate by assumption.
  now rewrite access_gate_unmetered.
Qed.

Lemma chat_limit (data : chat_data) (w : World) (u : gmap string Z) :
  has_messages data = true ->
  user_of data <> "anonymous" ->
  lookup_active w (user_of data) = false ->
  10 <= default 0 (u !! usage_key (user_of data) (now w)) ->
  chat data w u = (limit_reached, u, lookup_trace w (user_of data)).
Proof.
  intros Hm Ha Hs Hc. apply String.eqb_neq in Ha.
  rewrite chat_after_gate by assumption.
  now rewrite access_gate_limit.
Qed.

Lemma chat_admit (data : chat_data) (w : World) (u : gmap string Z) :
  has_messages data = true ->
  user_of data <> "anonymous" ->
  lookup_active w (user_of data) = false ->
  default 0 (u !! usage_key (user_of data) (now w)) < 10 ->
  chat data w u =
  (completion w data
     (JNum (10 - (default 0 (u !! usage_key (user_of data) (now w)) + 1))),
   <[usage_key (user_of data) (now w) :=
       default 0 (u !! usage_key (user_of data) (now w)) + 1]> u,
   (lookup_trace w (user_of data)
      ++ [UsageStore (usage_key (user_of data) (now w))
            (default 0 (u !! usage_key (user_of data) (now w)) + 1)])
     ++ [completion_call data]).
Proof.
  intros Hm Ha Hs Hc. apply String.eqb_neq in Ha.
  rewrite chat_after_gate by assumption.
  now rewrite access_gate_admit.
Qed.

Lemma wf_history_replicate (n : nat) (w : World) (req : request) :
  wf_datetime (now w) -> wf_history (replicate n (w, req)).
Proof.
  intros W. unfold wf_history.
  induction n as [|n IH]; simpl; constructor; [exact W | exact IH].
Qed.

Lemma wf_pi_day : wf_datetime pi_day.
Proof. unfold wf_datetime; simpl; lia. Qed.

Lemma wf_next_day : wf_datetime next_day.
Proof. unfold wf_datetime; simpl; lia. Qed.

(** ** The daily quota *)

(** C1, as amended.  For a non-subscribed, non-anonymous user, let [N] be
    one more than the number of that user's chat requests that went through
    the metering branch earlier on the same day.  If [N <= 10] the gate
    admits the request with [remaining = 10 - N] and the stored count
    becomes [N]; the Completion Provider is then called, and the response
    is the success body with [remaining_messages = 10 - N] when the
    completion answers, a 500 error without [remaining_messages] when it
    raises.  If [N > 10] the request is answered with the 429 body, whose
    [remaining_messages] is 0; the provider is not called and the store is
    left as it was. *)
Theorem chat_nth_request (h : list (World * request)) (w : World) (email : string) :
  wf_history h -> wf_datetime (now w) ->
  email <> "anonymous" ->
  lookup_active w email = false ->
  let N := metered_requests email (now w) h + 1 in
  let u := user_usage_after h in
  (N <= 10 ->
     fst (fst (access_gate email w u)) = Value (JNum (10 - N)) /\
     snd (fst (access_gate email w u)) !! usage_key email (now w) = Some N /\
     forall data, user_of data = email -> has_messages data = true ->
       reaches_provider (trace_of (chat data w u)) /\
       usage_of (chat data w u) !! usage_key email (now w) = Some N /\
       (forall text, completion_succeeds w data text ->
          reply (chat data w u) = chat_success text (JNum (10 - N))) /\
       (forall e, completion_raises w data e ->
          status (reply (chat data w u)) = 500 /\
          field "remaining_messages" (reply (chat data w u)) = None)) /\
  (10 < N ->
     access_gate email w u = (Return limit_reached, u, lookup_trace w email) /\
     status limit_reached = 429 /\
     field "remaining_messages" limit_reached = Some (JNum 0) /\
     forall data, user_of data = email -> has_messages data = true ->
       reply (chat data w u) = limit_reached /\
       ~ reaches_provider (trace_of (chat data w u)) /\
       usage_of (chat data w u) = u).
Proof.
  intros Wh Ww Ha Hs N u.
  pose proof (user_usage_after_lookup email (now w) h Ww Wh) as Hc.
  pose proof (metered_requests_nonneg email (now w) h) as Hn.
  fold u in Hc. pose proof Ha as Hb. apply String.eqb_neq in Hb.
  split; intros HN.
  - assert (Hlt : default 0 (u !! usage_key email (now w)) < 10) by lia.
    assert (HcN : default 0 (u !! usage_key email (now w)) + 1 = N) by lia.
    rewrite access_gate_admit by assumption. simpl.
    rewrite HcN, lookup_insert_eq.
    split; [reflexivity |]. split; [reflexivity |].
    intros data <- Hm.
    rewrite chat_admit by assumption.
    unfold reply, usage_of, trace_of; simpl. rewrite HcN, lookup_insert_eq.
    split; [apply reaches_provider_snoc |]. split; [reflexivity |]. split.
    + intros text Hok. now apply completion_ok.
    + intros e He. rewrite (completion_err _ _ _ _ He). apply chat_except_status.
  - assert (Hge : 10 <= default 0 (u !! usage_key email (now w))) by lia.
    rewrite access_gate_limit by assumption.
    split; [reflexivity |]. split; [reflexivity |]. split; [reflexivity |].
    intros data <- Hm.
    rewrite chat_limit by assumption.
    unfold reply, usage_of, trace_of; simpl.
    split; [reflexivity |]. split; [apply lookup_trace_no_provider | reflexivity].
Qed.

(** C1 as stated fails: the first request of the day of a non-subscribed
    user is admitted, yet when the completion call raises, the response is a
    500 error without any [remaining_messages], not [10 - 1]. *)
Lemma chat_first_request_outage :
  let x := chat from_a (outage_world pi_day) (user_usage_after []) in
  lookup_active (outage_world pi_day) "a@x.com" = false /\
  metered_requests "a@x.com" pi_day [] + 1 = 1 /\
  reaches_provider (trace_of x) /\
  status (reply x) = 500 /\
  field "remaining_messages" (reply x) = None /\
  field "remaining_messages" (reply x) <> Some (JNum (10 - 1)).
Proof.
  vm_compute. repeat split; try discriminate.
  do 3 eexists. right. right. left. reflexivity.
Qed.

Lemma chat_nth_request_witness :
  wf_history (requests_of_a 3 (free_world pi_day)) /\
  metered_requests "a@x.com" pi_day (requests_of_a 3 (free_world pi_day)) + 1 = 4 /\
  reply (chat from_a (free_world pi_day)
           (user_usage_after (requests_of_a 3 (free_world pi_day))))
  = chat_success "ahlan" (JNum 6) /\
  reply (chat from_a (free_world pi_day)
           (user_usage_after (requests_of_a 10 (free_world pi_day))))
  = limit_reached.
Proof.
  pose proof wf_pi_day as W.
  split; [apply wf_history_replicate; exact W |].
  split; [reflexivity |]. split.
  - destruct (chat_nth_request (requests_of_a 3 (free_world pi_day))
                (free_world pi_day) "a@x.com") as [Hle _].
    + apply wf_history_replicate; exact W.
    + exact W.
    + discriminate.
    + reflexivity.
    + destruct Hle as (_ & _ & Hchat).
      * vm_compute. discriminate.
      * destruct (Hchat from_a eq_refl eq_refl) as (_ & _ & Hok & _).
        apply (Hok "ahlan"). exists []. reflexivity.
  - destruct (chat_nth_request (requests_of_a 10 (free_world pi_day))
                (free_world pi_day) "a@x.com") as [_ Hgt].
    + apply wf_history_replicate; exact W.
    + exact W.
    + discriminate.
    + reflexivity.
    + destruct Hgt as (_ & _ & _ & Hchat).
      * vm_compute. reflexivity.
      * apply (Hchat from_a eq_refl eq_refl).
Defined.

(** C2.  On the non-subscribed, non-anonymous, under-limit path the count is
    stored before the Completion Provider is called: any provider call in
    the trace comes right after the write of [count + 1].  So whenever the
    call is made, the store holds [count + 1] afterwards, whatever the
    completion does; and when the call raises, the handler answers 500. *)
Theorem chat_charges_before_completion (w : World) (u : gmap string Z) (data : chat_data) :
  user_of data <> "anonymous" ->
  lookup_active w (user_of data) = false ->
  default 0 (u !! usage_key (user_of data) (now w)) < 10 ->
  let key := usage_key (user_of data) (now w) in
  let count := default 0 (u !! key) in
  let x := chat data w u in
  reaches_provider (trace_of x) ->
  (exists before,
     trace_of x = before ++ [UsageStore key (count + 1); completion_call data] /\
     ~ reaches_provider before) /\
  usage_of x !! key = Some (count + 1) /\
  (forall e, completion_raises w data e ->
     status (reply x) = 500 /\ usage_of x !! key = Some (count + 1)).
Proof.
  intros Ha Hs Hc key count x Hcall. subst x.
  destruct (has_messages data) eqn:Hm.
  2:{ rewrite chat_no_messages in Hcall by assumption.
      destruct Hcall as (? & ? & ? & []). }
  rewrite chat_admit by assumption.
  unfold reply, usage_of, trace_of; simpl. fold key. fold count.
  split.
  { exists (lookup_trace w (user_of data)).
    split; [now rewrite <- app_assoc | apply lookup_trace_no_provider]. }
  split; [now rewrite lookup_insert_eq |].
  intros e He. rewrite (completion_err _ _ _ _ He).
  split; [apply chat_except_status | now rewrite lookup_insert_eq].
Qed.

Lemma chat_charges_before_completion_witness :
  let x := chat from_a (outage_world pi_day) (user_usage_after (requests_of_a 2 (free_world pi_day))) in
  reaches_provider (trace_of x) /\
  completion_raises (outage_world pi_day) from_a (APIError "overloaded") /\
  status (reply x) = 500 /\
  usage_of x !! "a@x.com:2025-03-14" = Some 3.
Proof.
  assert (Hcall : reaches_provider
            (trace_of (chat from_a (outage_world pi_day)
                         (user_usage_after (requests_of_a 2 (free_world pi_day)))))).
  { do 3 eexists. vm_compute. right. right. left. reflexivity. }
  split; [exact Hcall |]. split; [reflexivity |].
  destruct (chat_charges_before_completion (outage_world pi_day)
              (user_usage_after (requests_of_a 2 (free_world pi_day))) from_a)
    as (_ & _ & Hfail).
  - discriminate.
  - reflexivity.
  - vm_compute. reflexivity.
  - exact Hcall.
  - exact (Hfail (APIError "overloaded") eq_refl).
Defined.

(** ** Unmetered users *)

Lemma chat_anonymous (data : chat_data) (w : World) (u : gmap string Z) :
  user_of data = "anonymous" ->
  chat data w u =
  if has_messages data
  then (completion w data (JStr "unlimited"), u, [completion_call data])
  else (jsonify_code [("error", JStr "No messages provided")] 400, u, []).
Proof.
  intros Ha. destruct (has_messages data) eqn:Hm.
  - rewrite chat_unmetered by (try assumption; now rewrite Ha).
    unfold lookup_trace. now rewrite Ha.
  - now apply chat_no_messages.
Qed.

Lemma completion_remaining (w : World) (data : chat_data) (remaining v : json) :
  field "remaining_messages" (completion w data remaining) = Some v -> v = remaining.
Proof.
  unfold completion.
  destruct (client_messages_create w _ _ _) as [[|text rest]|e].
  - discriminate.
  - unfold field; simpl. congruence.
  - destruct e; discriminate.
Qed.

(** C3, as amended.  For an anonymous request the gate skips counting: no
    lookup, no read or write of [user_usage].  Whenever the response carries
    a [remaining_messages] field, its value is the string ["unlimited"],
    never a number; and the response of a request that carries messages and
    whose completion answers does carry it. *)
Theorem chat_anonymous_unlimited (w : World) (u : gmap string Z) (data : chat_data) :
  user_of data = "anonymous" ->
  let x := chat data w u in
  access_gate (user_of data) w u = (Value (JStr "unlimited"), u, []) /\
  usage_of x = u /\
  ~ writes_usage (trace_of x) /\
  (forall v, field "remaining_messages" (reply x) = Some v -> v = JStr "unlimited") /\
  (forall text, has_messages data = true -> completion_succeeds w data text ->
     field "remaining_messages" (reply x) = Some (JStr "unlimited")).
Proof.
  intros Ha x. subst x. split.
  { rewrite access_gate_unmetered by (now rewrite Ha).
    unfold lookup_trace. now rewrite Ha. }
  rewrite chat_anonymous by assumption.
  destruct (has_messages data); unfold reply, usage_of, trace_of; simpl.
  - split; [reflexivity |]. split.
    { intros (k & v & [H|[]]). discriminate. }
    split; [apply completion_remaining |].
    intros text _ Hok. now rewrite (completion_ok _ _ _ _ Hok).
  - split; [reflexivity |]. split.
    { intros (k & v & []). }
    split; [discriminate | discriminate].
Qed.

(** C3 as stated fails: the response to an anonymous request reports
    [remaining_messages = "unlimited"], in that exact form. *)
Lemma chat_anonymous_reports_unlimited :
  user_of (hello (Some "anonymous")) = "anonymous" /\
  field "remaining_messages"
    (reply (chat (hello (Some "anonymous")) (free_world pi_day) ∅))
  = Some (JStr "unlimited").
Proof. split; reflexivity. Qed.

Lemma chat_anonymous_unlimited_witness :
  user_of (hello None) = "anonymous" /\
  field "remaining_messages" (reply (chat (hello None) (free_world pi_day) ∅))
  = Some (JStr "unlimited").
Proof.
  split; [reflexivity |].
  destruct (chat_anonymous_unlimited (free_world pi_day) ∅ (hello None) eq_refl)
    as (_ & _ & _ & _ & Hok).
  apply (Hok "ahlan"); [reflexivity | exists []; reflexivity].
Defined.

(** C4.  A request of a user with an active subscription passes the gate
    with [remaining = "unlimited"]; [user_usage] is left as it was, no write
    is even attempted, and a request that carries messages reaches the
    Completion Provider. *)
Theorem chat_subscriber_unmetered (w : World) (u : gmap string Z) (data : chat_data) :
  lookup_active w (user_of data) = true ->
  let x := chat data w u in
  access_gate (user_of data) w u
    = (Value (JStr "unlimited"), u, lookup_trace w (user_of data)) /\
  usage_of x = u /\
  ~ writes_usage (trace_of x) /\
  (has_messages data = true ->
     reaches_provider (trace_of x) /\
     forall text, completion_succeeds w data text ->
       reply x = chat_success text (JStr "unlimited")).
Proof.
  intros Hs x. subst x.
  assert (H : String.eqb (user_of data) "anonymous" || lookup_active w (user_of data) = true)
    by (rewrite Hs; apply orb_true_r).
  split; [now apply access_gate_unmetered |].
  destruct (has_messages data) eqn:Hm.
  - rewrite chat_unmetered by assumption.
    unfold reply, usage_of, trace_of; simpl.
    split; [reflexivity |]. split.
    { intros (k & v & Hin). apply in_app_or in Hin as [Hin|[Hin|[]]].
      - apply (lookup_trace_no_write w (user_of data)). now exists k, v.
      - discriminate. }
    intros _. split; [apply reaches_provider_snoc |].
    intros text Hok. now apply completion_ok.
  - rewrite chat_no_messages by assumption.
    unfold reply, usage_of, trace_of; simpl.
    split; [reflexivity |]. split; [| discriminate].
    intros (k & v & []).
Qed.

Lemma chat_subscriber_unmetered_witness :
  lookup_active (subscriber_world pi_day) "a@x.com" = true /\
  usage_of (chat from_a (subscriber_world pi_day)
              (user_usage_after (requests_of_a 4 (free_world pi_day))))
  = user_usage_after (requests_of_a 4 (free_world pi_day)).
Proof.
  split; [reflexivity |].
  apply (chat_subscriber_unmetered (subscriber_world pi_day)
           (user_usage_after (requests_of_a 4 (free_world pi_day))) from_a eq_refl).
Defined.

Lemma completion_status (w : World) (data : chat_data) (remaining : json) :
  status (completion w data remaining) = 200 \/ status (completion w data remaining) = 500.
Proof.
  unfold completion.
  destruct (client_messages_create w _ _ _) as [[|text rest]|[msg|msg]]; auto.
Qed.

(** C5.  Whatever [user_usage] holds and however many anonymous chat
    requests follow, none of them is answered 429, none writes to
    [user_usage], and the mapping is the same afterwards: no entry was
    created or incremented. *)
Theorem anonymous_never_metered (h : list (World * request)) :
  forall u : gmap string Z,
  Forall anonymous_chat h ->
  snd (serve u h) = u /\
  Forall (fun r => status (fst r) <> 429 /\ ~ writes_usage (snd r)) (fst (serve u h)).
Proof.
  induction h as [|[w req] rest IH]; intros u Hall.
  - split; [reflexivity | constructor].
  - apply Forall_cons in Hall as [(data & Hreq & Ha) Hrest].
    simpl in Hreq. subst req. simpl.
    rewrite chat_anonymous by assumption.
    assert (Hu : usage_of
              (if has_messages data
               then (completion w data (JStr "unlimited"), u, [completion_call data])
               else (jsonify_code [("error", JStr "No messages provided")] 400, u,
                     @nil event)) = u)
      by (destruct (has_messages data); reflexivity).
    rewrite Hu. destruct (IH u Hrest) as [IHu IHr].
    split; [exact IHu |].
    constructor; [| exact IHr].
    destruct (has_messages data); unfold reply, trace_of; simpl.
    + split.
      * destruct (completion_status w data (JStr "unlimited")) as [-> | ->]; discriminate.
      * intros (k & v & [H|[]]). discriminate.
    + split; [discriminate |]. intros (k & v & []).
Qed.

Lemma anonymous_never_metered_witness :
  Forall anonymous_chat
    (replicate 25 (free_world pi_day, Chat (hello (Some "anonymous")))) /\
  snd (serve (user_usage_after (requests_of_a 2 (free_world pi_day)))
         (replicate 25 (free_world pi_day, Chat (hello (Some "anonymous")))))
  = user_usage_after (requests_of_a 2 (free_world pi_day)).
Proof.
  assert (H : Forall anonymous_chat
            (replicate 25 (free_world pi_day, Chat (hello (Some "anonymous"))))).
  { apply Forall_replicate. exists (hello (Some "anonymous")). split; reflexivity. }
  split; [exact H |].
  apply (anonymous_never_metered _ (user_usage_after (requests_of_a 2 (free_world pi_day))) H).
Defined.

(** ** Failing subscription lookups *)

(** C6.  When the customer lookup raises, or the customer is found and the
    subscription lookup raises, [check_user_has_subscription] returns
    [False]: no exception leaves it.  The gate then treats the caller as a
    free-tier user: for a named user it meters the request, admitting it
    under the limit and answering 429 at the limit, never an error. *)
Theorem subscription_lookup_failure (email : string) (w : World) (u : gmap string Z) (e : exn) :
  stripe_customer_list w email = Err e \/
  (exists c cs, stripe_customer_list w email = Ok (c :: cs) /\
                stripe_subscription_list w (customer_id c) = Err e) ->
  check_user_has_subscription email w u = (Value false, u, lookup_trace w email) /\
  (email <> "anonymous" ->
   fst (fst (access_gate email w u)) =
   if 10 <=? default 0 (u !! usage_key email (now w))
   then Return limit_reached
   else Value (JNum (10 - (default 0 (u !! usage_key email (now w)) + 1)))).
Proof.
  intros H.
  assert (Hs : lookup_active w email = false).
  { unfold lookup_active. destruct H as [-> | (c & cs & -> & ->)]; reflexivity. }
  split.
  - rewrite check_user_has_subscription_eq, Hs. now rewrite andb_false_r.
  - intros Ha. apply String.eqb_neq in Ha.
    destruct (Z.leb_spec 10 (default 0 (u !! usage_key email (now w)))).
    + now rewrite access_gate_limit.
    + now rewrite access_gate_admit.
Qed.

Lemma subscription_lookup_failure_witness :
  stripe_customer_list (stripe_down_world pi_day) "a@x.com"
    = Err (Exception "connection refused") /\
  check_user_has_subscription "a@x.com" (stripe_down_world pi_day) ∅
    = (Value false, ∅, [CustomerList "a@x.com"]).
Proof.
  split; [reflexivity |].
  apply (subscription_lookup_failure "a@x.com" (stripe_down_world pi_day) ∅
           (Exception "connection refused")).
  left. reflexivity.
Defined.

(** ** Counters are per day *)

Lemma handle_bounded (req : request) (w : World) (u : gmap string Z) :
  bounded_usage u -> bounded_usage (usage_of (handle req w u)).
Proof.
  intros Hb. destruct req as [data|data|data]; simpl.
  - now rewrite create_checkout_usage.
  - now rewrite check_subscription_usage.
  - rewrite chat_usage.
    destruct (metered w data); simpl; [| exact Hb].
    destruct (Z.ltb_spec (default 0 (u !! usage_key (user_of data) (now w))) 10);
      [| exact Hb].
    intros k v. rewrite lookup_insert. case_decide.
    + intros [= <-].
      destruct (u !! usage_key (user_of data) (now w)) as [v0|] eqn:E; simpl in *.
      * specialize (Hb _ _ E). lia.
      * lia.
    + apply Hb.
Qed.

Lemma serve_bounded (h : list (World * request)) :
  forall u : gmap string Z, bounded_usage u -> bounded_usage (snd (serve u h)).
Proof.
  induction h as [|[w req] rest IH]; intros u Hb; [exact Hb |].
  simpl. apply IH. now apply handle_bounded.
Qed.

Lemma user_usage_bounded (h : list (World * request)) :
  bounded_usage (user_usage_after h).
Proof.
  apply serve_bounded. intros k v. rewrite lookup_empty. discriminate.
Qed.

(** Requests served on other dates do not count. *)
Lemma metered_requests_other_day (email : string) (d : datetime)
  (h : list (World * request)) :
  Forall (fun x => now (fst x) <> d) h -> metered_requests email d h = 0.
Proof.
  induction 1 as [|[w req] rest Hd _ IH]; [reflexivity |].
  simpl in Hd. destruct req as [data|data|data]; simpl; try exact IH.
  rewrite (bool_decide_eq_false_2 _ Hd), andb_false_r. lia.
Qed.

(** The anonymous user never gets an entry, whoever else is served. *)
Lemma anonymous_key_never_stored (h : list (World * request)) (d : datetime) :
  wf_history h -> wf_datetime d ->
  user_usage_after h !! usage_key "anonymous" d = None.
Proof.
  intros Wh Wd.
  pose proof (user_usage_after_lookup "anonymous" d h Wd Wh) as Hc.
  assert (Hz : metered_requests "anonymous" d h = 0).
  { clear. induction h as [|[w [data|data|data]] rest IH]; simpl;
      [reflexivity | assumption | assumption |].
    unfold metered.
    destruct (bool_decide (user_of data = "anonymous")) eqn:E.
    - apply bool_decide_eq_true in E. rewrite E. simpl.
      rewrite andb_false_r. simpl. exact IH.
    - rewrite andb_false_r. simpl. exact IH. }
  rewrite Hz in Hc.
  destruct (user_usage_after h !! usage_key "anonymous" d) as [v|] eqn:E;
    [| reflexivity].
  apply user_usage_bounded in E. simpl in Hc. lia.
Qed.

(** C7.  The counter of a user is kept per date.  Take a non-subscribed user
    whose count for day [d] has reached 10, and a request served on a date
    for which the user has not been metered yet (the first request of the
    day after [d], for one).  The count read for the new date is 0, the gate
    admits the request with [remaining = 9] and stores 1 under the new key,
    and the count of day [d] stays 10.  A request that carries messages
    reaches the Completion Provider and a successful response reports
    [remaining_messages = 9]. *)
Theorem usage_scoped_per_date (h : list (World * request)) (w : World)
  (email : string) (d : datetime) :
  wf_history h -> wf_datetime d -> wf_datetime (now w) ->
  email <> "anonymous" ->
  lookup_active w email = false ->
  user_usage_after h !! usage_key email d = Some 10 ->
  metered_requests email (now w) h = 0 ->
  let u := user_usage_after h in
  let key := usage_key email (now w) in
  default 0 (u !! key) = 0 /\
  access_gate email w u
    = (Value (JNum 9), <[key := 1]> u, lookup_trace w email ++ [UsageStore key 1]) /\
  <[key := 1]> u !! usage_key email d = Some 10 /\
  (forall data, user_of data = email -> has_messages data = true ->
     reaches_provider (trace_of (chat data w u)) /\
     usage_of (chat data w u) !! key = Some 1 /\
     forall text, completion_succeeds w data text ->
       reply (chat data w u) = chat_success text (JNum 9)).
Proof.
  intros Wh Wd Ww Ha Hs Hlimit Hnew u key.
  assert (Hc : default 0 (u !! key) = 0).
  { subst u key. rewrite user_usage_after_lookup by assumption.
    now rewrite Hnew. }
  split; [exact Hc |]. split.
  { apply String.eqb_neq in Ha.
    rewrite access_gate_admit by (try assumption; fold u key; lia).
    fold u key. rewrite Hc. reflexivity. }
  split.
  { rewrite lookup_insert_ne; [exact Hlimit |].
    intros Heq. subst key. rewrite Heq in Hc. fold u in Hlimit.
    rewrite Hlimit in Hc. discriminate. }
  intros data <- Hm.
  rewrite chat_admit by (try assumption; fold u key; lia).
  fold u key. rewrite Hc. unfold reply, usage_of, trace_of; simpl.
  split; [apply reaches_provider_snoc |].
  split; [now rewrite lookup_insert_eq |].
  intros text Hok. now apply completion_ok.
Qed.

Lemma usage_scoped_per_date_witness :
  user_usage_after (requests_of_a 12 (free_world pi_day)) !! usage_key "a@x.com" pi_day
    = Some 10 /\
  access_gate "a@x.com" (free_world next_day)
    (user_usage_after (requests_of_a 12 (free_world pi_day)))
  = (Value (JNum 9),
     <[usage_key "a@x.com" next_day := 1]>
       (user_usage_after (requests_of_a 12 (free_world pi_day))),
     [CustomerList "a@x.com"; UsageStore (usage_key "a@x.com" next_day) 1]).
Proof.
  assert (Hlimit : user_usage_after (requests_of_a 12 (free_world pi_day))
                     !! usage_key "a@x.com" pi_day = Some 10)
    by (vm_compute; reflexivity).
  split; [exact Hlimit |].
  apply (usage_scoped_per_date (requests_of_a 12 (free_world pi_day))
           (free_world next_day) "a@x.com" pi_day).
  - apply wf_history_replicate, wf_pi_day.
  - apply wf_pi_day.
  - apply wf_next_day.
  - discriminate.
  - reflexivity.
  - exact Hlimit.
  - reflexivity.
Defined.

(** ** Checkout *)

Lemma price_ids_get (premium premium_voice : option string) (plan : string) :
  default None
    (({[ "premium" := premium; "premium_voice" := premium_voice ]}
        : gmap string (option string)) !! plan)
  = if String.eqb plan "premium" then premium
    else if String.eqb plan "premium_voice" then premium_voice
    else None.
Proof.
  destruct (String.eqb_spec plan "premium") as [-> | H1].
  { now rewrite lookup_insert_eq. }
  rewrite lookup_insert_ne by congruence.
  destruct (String.eqb_spec plan "premium_voice") as [-> | H2].
  { now rewrite lookup_singleton_eq. }
  now rewrite lookup_singleton_ne by congruence.
Qed.

Lemma truthy_false (o : option string) :
  truthy o = false <-> (forall s, o = Some s -> s = "").
Proof.
  destruct o as [s|]; simpl.
  - rewrite negb_false_iff, String.eqb_eq. split.
    + intros -> s' [= <-]. reflexivity.
    + intros H. now apply H.
  - split; [discriminate | reflexivity].
Qed.

(** C8.  When the plan selector does not resolve to a configured price
    identifier, [create_checkout] answers 400 with the invalid-plan error
    and its trace is empty: the payment provider was not called. *)
Theorem create_checkout_invalid_plan (w : World) (u : gmap string Z) (data : checkout_data) :
  ~ plan_configured w (default "premium" (checkout_plan data)) ->
  create_checkout data w u =
  (jsonify_code [("error", JStr "Invalid plan selected")] 400, u, []).
Proof.
  intros Hno.
  unfold create_checkout, route, create_checkout_body, bind, environ_get. simpl.
  rewrite price_ids_get.
  set (plan := default "premium" (checkout_plan data)) in *.
  assert (Hf : truthy
            (if String.eqb plan "premium" then environ w !! "STRIPE_PRICE_PREMIUM"
             else if String.eqb plan "premium_voice"
                  then environ w !! "STRIPE_PRICE_PREMIUM_VOICE"
                  else None) = false).
  { apply truthy_false. intros s Hs.
    destruct (decide (s = "")) as [-> | Hne]; [reflexivity |].
    exfalso. apply Hno. exists s. split; [exact Hne |].
    destruct (String.eqb_spec plan "premium") as [-> | H1]; [left; auto |].
    destruct (String.eqb_spec plan "premium_voice") as [-> | H2]; [right; auto |].
    discriminate. }
  rewrite Hf. reflexivity.
Qed.

Lemma create_checkout_invalid_plan_witness :
  ~ plan_configured shop_world "gold" /\
  create_checkout (CheckoutData (Some "a@x.com") (Some "gold")) shop_world ∅ =
  (jsonify_code [("error", JStr "Invalid plan selected")] 400, ∅, []).
Proof.
  assert (H : ~ plan_configured shop_world "gold").
  { intros (pid & _ & [[H _] | [H _]]); discriminate. }
  split; [exact H |].
  apply (create_checkout_invalid_plan shop_world ∅
           (CheckoutData (Some "a@x.com") (Some "gold")) H).
Defined.

(** With a configured plan the provider is called. *)
Lemma create_checkout_configured_plan :
  trace_of (create_checkout (CheckoutData (Some "a@x.com") (Some "premium_voice"))
              shop_world ∅)
  = [SessionCreate
       {| line_item_price := "price_voice";
          success_url := "http://localhost:8000/success.html?session_id={CHECKOUT_SESSION_ID}";
          cancel_url := "http://localhost:8000";
          customer_email := Some "a@x.com" |}].
Proof. vm_compute. reflexivity. Qed.

(** ** Subscription status *)

Lemma check_subscription_eq (email : string) (w : World) (u : gmap string Z) :
  email <> "" ->
  check_subscription (SubscriptionData (Some email)) w u =
  match stripe_customer_list w email with
  | Ok [] =>
      (jsonify [("has_subscription", JBool false);
                ("remaining_messages",
                 JNum (Z.max 0 (10 - default 0 (u !! usage_key email (now w)))))],
       u, [CustomerList email])
  | Ok (c :: _) =>
      match stripe_subscription_list w (customer_id c) with
      | Ok subscriptions =>
          (jsonify
             [("has_subscription", JBool (0 <? Z.of_nat (length subscriptions)));
              ("subscription_status",
               match subscriptions with
               | s :: _ => JStr (subscription_status s)
               | [] => JNull
               end);
              ("remaining_messages",
               if 0 <? Z.of_nat (length subscriptions)
               then JStr "unlimited" else JNum 0)],
           u, [CustomerList email; SubscriptionList (customer_id c)])
      | Err e =>
          (jsonify_code [("error", JStr (str e))] 500, u,
           [CustomerList email; SubscriptionList (customer_id c)])
      end
  | Err e => (jsonify_code [("error", JStr (str e))] 500, u, [CustomerList email])
  end.
Proof.
  intros Hne. apply String.eqb_neq in Hne.
  unfold check_subscription, route, check_subscription_body, bind,
    Customer_list, Subscription_list, call, return_, today_Ymd, usage_get.
  simpl. rewrite Hne. simpl.
  destruct (stripe_customer_list w email) as [[|c cs]|e]; try reflexivity. simpl.
  destruct (stripe_subscription_list w (customer_id c)) as [ss|e]; reflexivity.
Qed.

(** C9.  For an email with a customer record and no active subscription,
    [check_subscription] reports [remaining_messages = 0] whatever
    [user_usage] holds.  The allowance computed from today's count, 10 minus
    the count, is what it reports when the provider has no customer record
    for the email; in every other case the response does not depend on
    [user_usage] at all. *)
Theorem check_subscription_remaining (w : World) (email : string) :
  email <> "" ->
  let data := SubscriptionData (Some email) in
  (forall u c cs,
     stripe_customer_list w email = Ok (c :: cs) ->
     stripe_subscription_list w (customer_id c) = Ok [] ->
     reply (check_subscription data w u) =
     jsonify [("has_subscription", JBool false);
              ("subscription_status", JNull);
              ("remaining_messages", JNum 0)]) /\
  (forall h,
     stripe_customer_list w email = Ok [] ->
     reply (check_subscription data w (user_usage_after h)) =
     jsonify [("has_subscription", JBool false);
              ("remaining_messages",
               JNum (10 - default 0 (user_usage_after h !! usage_key email (now w))))]) /\
  (forall u1 u2,
     stripe_customer_list w email <> Ok [] ->
     reply (check_subscription data w u1) = reply (check_subscription data w u2)).
Proof.
  intros Hne data. subst data. repeat split.
  - intros u c cs Hc Hs. rewrite check_subscription_eq by assumption.
    now rewrite Hc, Hs.
  - intros h Hc. rewrite check_subscription_eq by assumption. rewrite Hc.
    assert (Hb : 0 <= default 0 (user_usage_after h !! usage_key email (now w)) <= 10).
    { destruct (user_usage_after h !! usage_key email (now w)) as [v|] eqn:E; simpl.
      - apply user_usage_bounded in E. lia.
      - lia. }
    rewrite Z.max_r by lia. reflexivity.
  - intros u1 u2 Hc. rewrite !check_subscription_eq by assumption.
    destruct (stripe_customer_list w email) as [[|c cs]|e]; [congruence | | reflexivity].
    destruct (stripe_subscription_list w (customer_id c)); reflexivity.
Qed.

Lemma check_subscription_remaining_witness :
  "a@x.com" <> "" /\
  reply (check_subscription (SubscriptionData (Some "a@x.com")) (lapsed_world pi_day)
           (user_usage_after (requests_of_a 3 (free_world pi_day))))
  = jsonify [("has_subscription", JBool false);
             ("subscription_status", JNull);
             ("remaining_messages", JNum 0)].
Proof.
  assert (H : "a@x.com" <> "") by discriminate.
  split; [exact H |].
  destruct (check_subscription_remaining (lapsed_world pi_day) "a@x.com" H) as [Hzero _].
  apply (Hzero _ (Customer "cus_1") []); reflexivity.
Defined.

(** ** Requests without [user_email] *)

(** C10.  A chat body without [user_email] is metered as ["anonymous"]: the
    gate lets it through with an empty trace, so the payment provider is not
    asked; the response is the same whatever [user_usage] holds, so no quota
    is checked; [user_usage] is neither written nor changed; the answer is
    never 429, and a request that carries messages reaches the Completion
    Provider. *)
Theorem chat_default_anonymous (w : World) (u : gmap string Z) (data : chat_data) :
  chat_user_email data = None ->
  let x := chat data w u in
  user_of data = "anonymous" /\
  access_gate (user_of data) w u = (Value (JStr "unlimited"), u, []) /\
  ~ contacts_stripe (trace_of x) /\
  (forall u', reply (chat data w u') = reply x) /\
  usage_of x = u /\
  ~ writes_usage (trace_of x) /\
  status (reply x) <> 429 /\
  (has_messages data = true -> reaches_provider (trace_of x)).
Proof.
  intros He x. subst x.
  assert (Ha : user_of data = "anonymous") by (unfold user_of; now rewrite He).
  split; [exact Ha |]. split.
  { rewrite access_gate_unmetered by (now rewrite Ha).
    unfold lookup_trace. now rewrite Ha. }
  split.
  { rewrite chat_anonymous by assumption.
    destruct (has_messages data); unfold trace_of; simpl.
    - intros (ev & [<- | []] & H). exact H.
    - intros (ev & [] & _). }
  split.
  { intros u'. rewrite !chat_anonymous by assumption.
    destruct (has_messages data); reflexivity. }
  rewrite chat_anonymous by assumption.
  destruct (has_messages data); unfold reply, usage_of, trace_of; simpl.
  - split; [reflexivity |]. split.
    { intros (k & v & [H | []]). discriminate. }
    split.
    { destruct (completion_status w data (JStr "unlimited")) as [-> | ->]; discriminate. }
    intros _. apply (reaches_provider_snoc [] data).
  - split; [reflexivity |]. split.
    { intros (k & v & []). }
    split; discriminate.
Qed.

Lemma chat_default_anonymous_witness :
  chat_user_email (hello None) = None /\
  chat (hello None) (stripe_down_world pi_day)
    (user_usage_after (requests_of_a 10 (free_world pi_day)))
  = (chat_success "ahlan" (JStr "unlimited"),
     user_usage_after (requests_of_a 10 (free_world pi_day)),
     [completion_call (hello None)]) /\
  ~ contacts_stripe
      (trace_of (chat (hello None) (stripe_down_world pi_day)
                   (user_usage_after (requests_of_a 10 (free_world pi_day))))).
Proof.
  split; [reflexivity |]. split; [vm_compute; reflexivity |].
  apply (chat_default_anonymous (stripe_down_world pi_day)
           (user_usage_after (requests_of_a 10 (free_world pi_day)))
           (hello None) eq_refl).
Defined.

(** * Further properties of the handlers *)

(** ** [create_checkout] on a configured plan *)

Lemma create_checkout_cases (w : World) (u : gmap string Z) (data : checkout_data) :
  (~ plan_configured w (default "premium" (checkout_plan data)) /\
   create_checkout data w u =
   (jsonify_code [("error", JStr "Invalid plan selected")] 400, u, [])) \/
  (exists price_id,
     price_id <> "" /\
     plan_price w (default "premium" (checkout_plan data)) price_id /\
     create_checkout data w u =
     match stripe_session_create w (checkout_args w data price_id) with
     | Ok url => (jsonify [("checkout_url", JStr url)], u,
                  [SessionCreate (checkout_args w data price_id)])
     | Err e => (jsonify_code [("error", JStr (str e))] 500, u,
                 [SessionCreate (checkout_args w data price_id)])
     end).
Proof.
  unfold create_checkout, route, create_checkout_body, bind, environ_get,
    Session_create, call, return_, checkout_args. simpl.
  rewrite price_ids_get.
  set (plan := default "premium" (checkout_plan data)).
  set (o := if String.eqb plan "premium" then environ w !! "STRIPE_PRICE_PREMIUM"
            else if String.eqb plan "premium_voice"
                 then environ w !! "STRIPE_PRICE_PREMIUM_VOICE"
                 else None).
  destruct (truthy o) eqn:Ht; simpl.
  - right. destruct o as [pid|] eqn:Ho; [| discriminate].
    exists pid. simpl in Ht. apply negb_true_iff, String.eqb_neq in Ht.
    split; [exact Ht |]. split.
    + unfold plan_price. subst o.
      destruct (String.eqb_spec plan "premium") as [-> | H1]; [left; auto |].
      destruct (String.eqb_spec plan "premium_voice") as [-> | H2]; [right; auto |].
      discriminate.
    + simpl. destruct (stripe_session_create w _); reflexivity.
  - left. split; [| reflexivity].
    intros (pid & Hne & Hp).
    assert (Ho : o = Some pid).
    { subst o. destruct Hp as [[-> H] | [-> H]]; simpl; exact H. }
    rewrite Ho in Ht. simpl in Ht.
    apply negb_false_iff, String.eqb_eq in Ht. contradiction.
Qed.

Lemma plan_price_unique (w : World) (plan p1 p2 : string) :
  plan_price w plan p1 -> plan_price w plan p2 -> p1 = p2.
Proof.
  intros [[-> H1] | [-> H1]] [[E H2] | [E H2]]; try discriminate; congruence.
Qed.

(** X1.  On a configured plan, when the payment provider creates the
    session, [create_checkout] answers 200 with the session's URL.  The
    provider is called exactly once, with the price identifier of the chosen
    plan, the caller's email, and success and cancel targets built from
    [FRONTEND_URL] (["http://localhost:8000"] when unset); [user_usage] is
    left as it was. *)
Theorem create_checkout_session (w : World) (u : gmap string Z)
  (data : checkout_data) (price_id url : string) :
  price_id <> "" ->
  plan_price w (default "premium" (checkout_plan data)) price_id ->
  stripe_session_create w (checkout_args w data price_id) = Ok url ->
  create_checkout data w u =
  (jsonify [("checkout_url", JStr url)], u,
   [SessionCreate
      {| line_item_price := price_id;
         success_url := default "http://localhost:8000" (environ w !! "FRONTEND_URL")
                        +:+ "/success.html?session_id={CHECKOUT_SESSION_ID}";
         cancel_url := default "http://localhost:8000" (environ w !! "FRONTEND_URL");
         customer_email := checkout_email data |}]).
Proof.
  intros Hne Hp Hok.
  destruct (create_checkout_cases w u data) as [[Hno _] | (pid & _ & Hp' & Heq)].
  - exfalso. apply Hno. exists price_id. split; [exact Hne | exact Hp].
  - rewrite (plan_price_unique _ _ _ _ Hp' Hp) in Heq.
    rewrite Heq, Hok. reflexivity.
Qed.

Lemma create_checkout_session_witness :
  plan_price shop_world "premium" "price_basic" /\
  reply (create_checkout (CheckoutData (Some "a@x.com") None) shop_world ∅)
  = jsonify [("checkout_url", JStr "https://checkout.example/s1")].
Proof.
  assert (Hp : plan_price shop_world "premium" "price_basic")
    by (left; split; reflexivity).
  split; [exact Hp |].
  rewrite (create_checkout_session shop_world ∅ (CheckoutData (Some "a@x.com") None)
             "price_basic" "https://checkout.example/s1");
    [reflexivity | discriminate | exact Hp | reflexivity].
Defined.

(** X2.  On a configured plan, when [Session.create] raises, the handler
    answers 500 and the body carries the text of the exception; the provider
    was called once and [user_usage] is left as it was. *)
Theorem create_checkout_provider_error (w : World) (u : gmap string Z)
  (data : checkout_data) (price_id : string) (e : exn) :
  price_id <> "" ->
  plan_price w (default "premium" (checkout_plan data)) price_id ->
  stripe_session_create w (checkout_args w data price_id) = Err e ->
  create_checkout data w u =
  (jsonify_code [("error", JStr (str e))] 500, u,
   [SessionCreate (checkout_args w data price_id)]).
Proof.
  intros Hne Hp Herr.
  destruct (create_checkout_cases w u data) as [[Hno _] | (pid & _ & Hp' & Heq)].
  - exfalso. apply Hno. exists price_id. split; [exact Hne | exact Hp].
  - rewrite (plan_price_unique _ _ _ _ Hp' Hp) in Heq.
    rewrite Heq, Herr. reflexivity.
Qed.

Lemma create_checkout_provider_error_witness :
  plan_price shop_down_world "premium_voice" "price_voice" /\
  reply (create_checkout (CheckoutData (Some "a@x.com") (Some "premium_voice"))
           shop_down_world ∅)
  = jsonify_code [("error", JStr "connection refused")] 500.
Proof.
  assert (Hp : plan_price shop_down_world "premium_voice" "price_voice")
    by (right; split; reflexivity).
  split; [exact Hp |].
  rewrite (create_checkout_provider_error shop_down_world ∅
             (CheckoutData (Some "a@x.com") (Some "premium_voice"))
             "price_voice" (Exception "connection refused"));
    [reflexivity | discriminate | exact Hp | reflexivity].
Defined.

(** X3.  [create_checkout] answers 400 exactly when the plan selector does
    not resolve to a configured price identifier, and it calls the payment
    provider exactly when it does; the answer is always 200, 400 or 500. *)
Theorem create_checkout_status (w : World) (u : gmap string Z) (data : checkout_data) :
  (status (reply (create_checkout data w u)) = 400
     <-> ~ plan_configured w (default "premium" (checkout_plan data))) /\
  (contacts_stripe (trace_of (create_checkout data w u))
     <-> plan_configured w (default "premium" (checkout_plan data))) /\
  (status (reply (create_checkout data w u)) = 200 \/
   status (reply (create_checkout data w u)) = 400 \/
   status (reply (create_checkout data w u)) = 500).
Proof.
  destruct (create_checkout_cases w u data) as [[Hno Heq] | (pid & Hne & Hp & Heq)];
    rewrite Heq.
  - unfold reply, trace_of; simpl. split; [tauto |]. split; [| auto].
    split; [intros (ev & [] & _) | intros H; contradiction].
  - assert (Hc : plan_configured w (default "premium" (checkout_plan data)))
      by (exists pid; split; assumption).
    destruct (stripe_session_create w _); unfold reply, trace_of; simpl.
    + split; [split; [discriminate | tauto] |]. split; [| auto].
      split; [intros _; exact Hc |]. intros _. eexists. split; [left; reflexivity | exact I].
    + split; [split; [discriminate | tauto] |]. split; [| auto].
      split; [intros _; exact Hc |]. intros _. eexists. split; [left; reflexivity | exact I].
Qed.

(** ** [check_subscription] *)

(** X4.  Without an email (the key is absent or holds the empty string),
    [check_subscription] answers the default allowance of 10 with
    [has_subscription = false]; it asks the payment provider nothing and does
    not look at [user_usage], so the answer is the same whatever the world
    and the counters are. *)
Theorem check_subscription_no_email (w : World) (u : gmap string Z)
  (data : subscription_data) :
  subscription_email data = None \/ subscription_email data = Some "" ->
  check_subscription data w u =
  (jsonify [("has_subscription", JBool false); ("remaining_messages", JNum 10)], u, []).
Proof.
  intros H. unfold check_subscription, route, check_subscription_body.
  destruct H as [-> | ->]; reflexivity.
Qed.

Lemma check_subscription_no_email_witness :
  reply (check_subscription (SubscriptionData (Some "")) (stripe_down_world pi_day)
           (user_usage_after (requests_of_a 10 (free_world pi_day))))
  = jsonify [("has_subscription", JBool false); ("remaining_messages", JNum 10)].
Proof.
  rewrite (check_subscription_no_email (stripe_down_world pi_day)
             (user_usage_after (requests_of_a 10 (free_world pi_day)))
             (SubscriptionData (Some "")));
    [reflexivity | right; reflexivity].
Defined.

(** X5.  For an email whose customer record has an active subscription,
    [check_subscription] answers [has_subscription = true], the status of
    the first subscription listed and [remaining_messages = "unlimited"],
    after one customer lookup and one subscription lookup for the first
    customer listed; the usage counters play no part. *)
Theorem check_subscription_active (w : World) (u : gmap string Z) (email : string)
  (c : customer) (cs : list customer) (s : subscription) (ss : list subscription) :
  email <> "" ->
  stripe_customer_list w email = Ok (c :: cs) ->
  stripe_subscription_list w (customer_id c) = Ok (s :: ss) ->
  check_subscription (SubscriptionData (Some email)) w u =
  (jsonify [("has_subscription", JBool true);
            ("subscription_status", JStr (subscription_status s));
            ("remaining_messages", JStr "unlimited")],
   u,
   [CustomerList email; SubscriptionList (customer_id c)]).
Proof.
  intros Hne Hc Hs. rewrite check_subscription_eq by assumption.
  rewrite Hc, Hs. reflexivity.
Qed.

Lemma check_subscription_active_witness :
  reply (check_subscription (SubscriptionData (Some "a@x.com")) (subscriber_world pi_day) ∅)
  = jsonify [("has_subscription", JBool true);
             ("subscription_status", JStr "active");
             ("remaining_messages", JStr "unlimited")].
Proof.
  rewrite (check_subscription_active (subscriber_world pi_day) ∅ "a@x.com"
             (Customer "cus_1") [] (Subscription "active") []);
    [reflexivity | discriminate | reflexivity | reflexivity].
Defined.

(** X6.  When a lookup raises, [check_subscription] answers 500 with the
    text of the exception, whereas [check_user_has_subscription], in the
    same world, swallows it and returns [False]: the status endpoint reports
    the outage that the chat gate hides. *)
Theorem check_subscription_lookup_error (w : World) (u : gmap string Z)
  (email : string) (e : exn) :
  email <> "" ->
  stripe_customer_list w email = Err e \/
  (exists c cs, stripe_customer_list w email = Ok (c :: cs) /\
                stripe_subscription_list w (customer_id c) = Err e) ->
  reply (check_subscription (SubscriptionData (Some email)) w u)
    = jsonify_code [("error", JStr (str e))] 500 /\
  usage_of (check_subscription (SubscriptionData (Some email)) w u) = u /\
  fst (fst (check_user_has_subscription email w u)) = Value false.
Proof.
  intros Hne H. rewrite check_subscription_eq by assumption.
  rewrite check_user_has_subscription_eq.
  assert (Hs : lookup_active w email = false).
  { unfold lookup_active. destruct H as [-> | (c & cs & -> & ->)]; reflexivity. }
  rewrite Hs, andb_false_r.
  destruct H as [-> | (c & cs & -> & ->)]; repeat split; reflexivity.
Qed.

Lemma check_subscription_lookup_error_witness :
  reply (check_subscription (SubscriptionData (Some "a@x.com")) (stripe_down_world pi_day) ∅)
  = jsonify_code [("error", JStr "connection refused")] 500.
Proof.
  apply (check_subscription_lookup_error (stripe_down_world pi_day) ∅ "a@x.com"
           (Exception "connection refused")).
  - discriminate.
  - left. reflexivity.
Defined.

(** X7.  For a named user without a customer record, the allowance that
    [check_subscription] reports is what [chat] enforces in the same world:
    when it reports 0 the next chat request is answered 429, and when it
    reports [r > 0] the next chat request is admitted and its successful
    response reports [r - 1]. *)
Theorem check_subscription_predicts_chat (w : World) (u : gmap string Z)
  (email : string) (data : chat_data) (r : Z) :
  email <> "" -> email <> "anonymous" ->
  stripe_customer_list w email = Ok [] ->
  user_of data = email -> has_messages data = true ->
  field "remaining_messages" (reply (check_subscription (SubscriptionData (Some email)) w u))
    = Some (JNum r) ->
  (r = 0 -> reply (chat data w u) = limit_reached) /\
  (0 < r ->
     reaches_provider (trace_of (chat data w u)) /\
     forall text, completion_succeeds w data text ->
       reply (chat data w u) = chat_success text (JNum (r - 1))).
Proof.
  intros Hne Ha Hc <- Hm Hr.
  rewrite check_subscription_eq in Hr by assumption. rewrite Hc in Hr.
  unfold reply, field in Hr; simpl in Hr. injection Hr as Hr.
  assert (Hs : lookup_active w (user_of data) = false)
    by (unfold lookup_active; now rewrite Hc).
  split; intros H0.
  - rewrite chat_limit by (try assumption; lia). reflexivity.
  - rewrite chat_admit by (try assumption; lia).
    unfold reply, trace_of; simpl.
    split; [apply reaches_provider_snoc |].
    intros text Hok. rewrite (completion_ok _ _ _ _ Hok). do 2 f_equal. lia.
Qed.

Lemma check_subscription_predicts_chat_witness :
  field "remaining_messages"
    (reply (check_subscription (SubscriptionData (Some "a@x.com")) (free_world pi_day)
              (user_usage_after (requests_of_a 4 (free_world pi_day)))))
    = Some (JNum 6) /\
  reply (chat from_a (free_world pi_day)
           (user_usage_after (requests_of_a 4 (free_world pi_day))))
  = chat_success "ahlan" (JNum 5).
Proof.
  assert (Hr : field "remaining_messages"
            (reply (check_subscription (SubscriptionData (Some "a@x.com"))
                      (free_world pi_day)
                      (user_usage_after (requests_of_a 4 (free_world pi_day)))))
          = Some (JNum 6)) by (vm_compute; reflexivity).
  split; [exact Hr |].
  destruct (check_subscription_predicts_chat (free_world pi_day)
              (user_usage_after (requests_of_a 4 (free_world pi_day)))
              "a@x.com" from_a 6) as [_ Hpos];
    [discriminate | discriminate | reflexivity | reflexivity | reflexivity | exact Hr |].
  destruct Hpos as [_ Hok]; [lia |].
  apply (Hok "ahlan"). exists []. reflexivity.
Defined.

(** X8.  For a named user with a customer record and no active
    subscription, the two handlers disagree: [check_subscription] reports
    [remaining_messages = 0], yet as long as today's count is under 10 a
    chat request is admitted, and its successful response reports the
    allowance that is left. *)
Theorem lapsed_customer_still_admitted (w : World) (u : gmap string Z)
  (email : string) (data : chat_data) (c : customer) (cs : list customer) :
  email <> "" -> email <> "anonymous" ->
  stripe_customer_list w email = Ok (c :: cs) ->
  stripe_subscription_list w (customer_id c) = Ok [] ->
  user_of data = email -> has_messages data = true ->
  default 0 (u !! usage_key email (now w)) < 10 ->
  field "remaining_messages" (reply (check_subscription (SubscriptionData (Some email)) w u))
    = Some (JNum 0) /\
  reaches_provider (trace_of (chat data w u)) /\
  forall text, completion_succeeds w data text ->
    reply (chat data w u)
    = chat_success text (JNum (10 - (default 0 (u !! usage_key email (now w)) + 1))).
Proof.
  intros Hne Ha Hc Hsub <- Hm Hlt.
  assert (Hs : lookup_active w (user_of data) = false)
    by (unfold lookup_active; now rewrite Hc, Hsub).
  rewrite check_subscription_eq by assumption. rewrite Hc, Hsub.
  split; [reflexivity |].
  rewrite chat_admit by assumption. unfold reply, trace_of; simpl.
  split; [apply reaches_provider_snoc |].
  intros text Hok. now apply completion_ok.
Qed.

Lemma lapsed_customer_still_admitted_witness :
  field "remaining_messages"
    (reply (check_subscription (SubscriptionData (Some "a@x.com")) (lapsed_world pi_day) ∅))
    = Some (JNum 0) /\
  reply (chat from_a (lapsed_world pi_day) ∅) = chat_success "ahlan" (JNum 9).
Proof.
  destruct (lapsed_customer_still_admitted (lapsed_world pi_day) ∅ "a@x.com" from_a
              (Customer "cus_1") []) as (H0 & _ & Hok);
    try reflexivity; try discriminate.
  split; [exact H0 |].
  apply (Hok "ahlan"). exists []. reflexivity.
Defined.

(** X9.  Whenever the lookups answer without raising, the [has_subscription]
    field of [check_subscription] is the boolean that
    [check_user_has_subscription] returns for the same named user in the
    same world. *)
Theorem check_subscription_agrees_with_helper (w : World) (u : gmap string Z)
  (email : string) (customers : list customer) :
  email <> "" -> email <> "anonymous" ->
  stripe_customer_list w email = Ok customers ->
  (forall c cs, customers = c :: cs ->
     exists subscriptions, stripe_subscription_list w (customer_id c) = Ok subscriptions) ->
  exists b,
    check_user_has_subscription email w u = (Value b, u, lookup_trace w email) /\
    field "has_subscription"
      (reply (check_subscription (SubscriptionData (Some email)) w u)) = Some (JBool b) /\
    trace_of (check_subscription (SubscriptionData (Some email)) w u) = lookup_trace w email.
Proof.
  intros Hne Ha Hc Hsub. apply String.eqb_neq in Ha.
  exists (lookup_active w email).
  rewrite check_user_has_subscription_eq, Ha. simpl.
  split; [reflexivity |].
  rewrite check_subscription_eq by assumption.
  unfold lookup_active, lookup_trace. rewrite Ha, Hc.
  destruct customers as [|c cs]; [split; reflexivity |].
  destruct (Hsub c cs eq_refl) as [subs ->].
  destruct subs; split; reflexivity.
Qed.

Lemma check_subscription_agrees_with_helper_witness :
  check_user_has_subscription "a@x.com" (subscriber_world pi_day) ∅
    = (Value true, ∅, [CustomerList "a@x.com"; SubscriptionList "cus_1"]) /\
  field "has_subscription"
    (reply (check_subscription (SubscriptionData (Some "a@x.com")) (subscriber_world pi_day) ∅))
  = Some (JBool true).
Proof.
  destruct (check_subscription_agrees_with_helper (subscriber_world pi_day) ∅ "a@x.com"
              [Customer "cus_1"]) as (b & Hb & Hf & _).
  - discriminate.
  - discriminate.
  - reflexivity.
  - intros c cs _. exists [Subscription "active"]. reflexivity.
  - assert (E : b = true) by (vm_compute in Hb; congruence).
    subst b. split; [exact Hb | exact Hf].
Defined.

Lemma create_checkout_trace_events (w : World) (u : gmap string Z)
  (data : checkout_data) (ev : event) :
  In ev (trace_of (create_checkout data w u)) -> exists a, ev = SessionCreate a.
Proof.
  destruct (create_checkout_cases w u data) as [[_ Heq] | (pid & _ & _ & Heq)];
    rewrite Heq.
  - intros [].
  - destruct (stripe_session_create w _); intros [<- | []]; eauto.
Qed.

Lemma check_subscription_trace_events (w : World) (u : gmap string Z)
  (data : subscription_data) (ev : event) :
  In ev (trace_of (check_subscription data w u)) ->
  exists x, ev = CustomerList x \/ ev = SubscriptionList x.
Proof.
  unfold check_subscription, route, check_subscription_body, bind,
    Customer_list, Subscription_list, call, return_, today_Ymd, usage_get, trace_of.
  destruct (negb _); [intros [] |]. simpl.
  destruct (stripe_customer_list w _) as [[|c cs]|e]; simpl;
    try (intros [<- | []]; eauto).
  destruct (stripe_subscription_list w _) as [subs|e]; simpl;
    intros [<- | [<- | []]]; eauto.
Qed.

(** X10.  [create_checkout] and [check_subscription] are read-only on the
    usage counters and never reach the Completion Provider: whatever the
    body and the world, [user_usage] is the same afterwards and the trace
    holds neither a write nor a completion call. *)
Theorem billing_routes_read_only (w : World) (u : gmap string Z)
  (checkout : checkout_data) (query : subscription_data) :
  usage_of (create_checkout checkout w u) = u /\
  ~ writes_usage (trace_of (create_checkout checkout w u)) /\
  ~ reaches_provider (trace_of (create_checkout checkout w u)) /\
  usage_of (check_subscription query w u) = u /\
  ~ writes_usage (trace_of (check_subscription query w u)) /\
  ~ reaches_provider (trace_of (check_subscription query w u)).
Proof.
  split; [apply create_checkout_usage |].
  split; [intros (k & v & H); apply create_checkout_trace_events in H as [a H];
          discriminate |].
  split; [intros (a & b & c & H); apply create_checkout_trace_events in H as [x H];
          discriminate |].
  split; [apply check_subscription_usage |].
  split; [intros (k & v & H); apply check_subscription_trace_events in H as [x [H | H]];
          discriminate |].
  intros (a & b & c & H); apply check_subscription_trace_events in H as [x [H | H]];
    discriminate.
Qed.

(** ** [chat]: answers and calls *)

Lemma metered_true (w : World) (data : chat_data) :
  metered w data = true ->
  has_messages data = true /\ user_of data <> "anonymous"
  /\ lookup_active w (user_of data) = false.
Proof.
  unfold metered. intros H.
  apply andb_true_iff in H as [H Hs]. apply andb_true_iff in H as [Hm Ha].
  apply negb_true_iff in Hs. apply negb_true_iff, String.eqb_neq in Ha. auto.
Qed.

(** The four ways a [chat] run can go. *)
Lemma chat_cases (data : chat_data) (w : World) (u : gmap string Z) :
  (has_messages data = false /\
   chat data w u = (jsonify_code [("error", JStr "No messages provided")] 400, u, [])) \/
  (has_messages data = true /\ metered w data = false /\
   chat data w u = (completion w data (JStr "unlimited"), u,
                    lookup_trace w (user_of data) ++ [completion_call data])) \/
  (metered w data = true /\
   10 <= default 0 (u !! usage_key (user_of data) (now w)) /\
   chat data w u = (limit_reached, u, lookup_trace w (user_of data))) \/
  (metered w data = true /\
   default 0 (u !! usage_key (user_of data) (now w)) < 10 /\
   chat data w u =
   (completion w data
      (JNum (10 - (default 0 (u !! usage_key (user_of data) (now w)) + 1))),
    <[usage_key (user_of data) (now w) :=
        default 0 (u !! usage_key (user_of data) (now w)) + 1]> u,
    (lookup_trace w (user_of data)
       ++ [UsageStore (usage_key (user_of data) (now w))
             (default 0 (u !! usage_key (user_of data) (now w)) + 1)])
      ++ [completion_call data])).
Proof.
  destruct (has_messages data) eqn:Hm.
  2:{ left. split; [reflexivity | now apply chat_no_messages]. }
  right. destruct (metered w data) eqn:Hmet.
  - right. destruct (metered_true _ _ Hmet) as (_ & Ha & Hs).
    destruct (Z.le_gt_cases 10 (default 0 (u !! usage_key (user_of data) (now w)))).
    + left. split; [reflexivity |]. split; [assumption |]. now apply chat_limit.
    + right. split; [reflexivity |]. split; [assumption |]. now apply chat_admit.
  - left. split; [reflexivity |]. split; [reflexivity |].
    apply chat_unmetered; [assumption |].
    unfold metered in Hmet. rewrite Hm in Hmet. simpl in Hmet.
    destruct (String.eqb (user_of data) "anonymous"); [reflexivity |].
    simpl in *. now apply negb_false_iff in Hmet.
Qed.

Lemma completion_status_200 (w : World) (data : chat_data) (remaining : json) :
  status (completion w data remaining) = 200 <-> exists text, completion_succeeds w data text.
Proof.
  unfold completion, completion_succeeds.
  destruct (client_messages_create w _ _ _) as [[|text rest]|[msg|msg]]; simpl.
  - split; [discriminate | intros (t & r & H); discriminate].
  - split; [intros _; eauto | reflexivity].
  - split; [discriminate | intros (t & r & H); discriminate].
  - split; [discriminate | intros (t & r & H); discriminate].
Qed.

Lemma lookup_trace_then_write_no_provider (w : World) (email key : string) (v : Z) :
  ~ reaches_provider (lookup_trace w email ++ [UsageStore key v]).
Proof.
  intros (a & b & c & H). apply in_app_or in H as [H | [H | []]].
  - apply (lookup_trace_no_provider w email). now exists a, b, c.
  - discriminate.
Qed.

(** X11.  The status of a [chat] answer tells what happened: 400 exactly
    when the body carries no messages; 429 exactly when the request is
    metered and today's count has reached 10; 200 exactly when the
    Completion Provider was called and answered with some text; 500
    otherwise. *)
Theorem chat_status (data : chat_data) (w : World) (u : gmap string Z) :
  let x := chat data w u in
  (status (reply x) = 400 <-> has_messages data = false) /\
  (status (reply x) = 429 <->
     metered w data = true /\ 10 <= default 0 (u !! usage_key (user_of data) (now w))) /\
  (status (reply x) = 200 <->
     reaches_provider (trace_of x) /\ exists text, completion_succeeds w data text) /\
  (status (reply x) = 200 \/ status (reply x) = 400 \/
   status (reply x) = 429 \/ status (reply x) = 500).
Proof.
  intros x. subst x.
  destruct (chat_cases data w u)
    as [[Hm Heq] | [(Hm & Hmet & Heq) | [(Hmet & Hc & Heq) | (Hmet & Hc & Heq)]]];
    rewrite Heq; unfold reply, trace_of; simpl.
  - split; [tauto |]. split.
    { split; [discriminate |]. intros [Hmet _].
      apply metered_true in Hmet as [Hm' _]. congruence. }
    split; [| auto].
    split; [discriminate | intros [(a & b & c & []) _]].
  - pose proof (completion_status w data (JStr "unlimited")) as Hst.
    pose proof (completion_status_200 w data (JStr "unlimited")) as H200.
    split; [split; [destruct Hst as [-> | ->]; discriminate | congruence] |].
    split; [split; [destruct Hst as [-> | ->]; discriminate | intros [? _]; congruence] |].
    split; [| destruct Hst as [-> | ->]; auto].
    rewrite H200. split; [intros H; split; [apply reaches_provider_snoc | exact H] | tauto].
  - split.
    { split; [discriminate |]. intros Hm.
      apply metered_true in Hmet as [Hm' _]. congruence. }
    split; [tauto |]. split; [| auto].
    split; [discriminate |]. intros [H _].
    exfalso. now apply (lookup_trace_no_provider w (user_of data)).
  - set (r := JNum _).
    pose proof (completion_status w data r) as Hst.
    pose proof (completion_status_200 w data r) as H200.
    split.
    { split; [destruct Hst as [-> | ->]; discriminate |]. intros Hm.
      apply metered_true in Hmet as [Hm' _]. congruence. }
    split; [split; [destruct Hst as [-> | ->]; discriminate | intros [_ ?]; lia] |].
    split; [| destruct Hst as [-> | ->]; auto].
    rewrite H200. split; [intros H; split; [apply reaches_provider_snoc | exact H] | tauto].
Qed.

Lemma chat_reply_after_call (data : chat_data) (w : World) (u : gmap string Z) :
  reaches_provider (trace_of (chat data w u)) ->
  exists remaining, reply (chat data w u) = completion w data remaining.
Proof.
  destruct (chat_cases data w u)
    as [[Hm Heq] | [(Hm & Hmet & Heq) | [(Hmet & Hc & Heq) | (Hmet & Hc & Heq)]]];
    rewrite Heq; unfold reply, trace_of; simpl; intros H.
  - destruct H as (a & b & c & []).
  - eauto.
  - exfalso. now apply (lookup_trace_no_provider w (user_of data)).
  - eauto.
Qed.

(** X12.  When the completion call raises, the answer is a 500 body with
    [success = false] whose error text tells the two [except] clauses apart:
    ["Anthropic API error: "] before the text of an [APIError],
    ["Server error: "] before the text of any other exception. *)
Theorem chat_completion_raises (data : chat_data) (w : World) (u : gmap string Z) (e : exn) :
  reaches_provider (trace_of (chat data w u)) ->
  completion_raises w data e ->
  reply (chat data w u) =
  jsonify_code
    [("success", JBool false);
     ("error", JStr (match e with
                     | APIError msg => "Anthropic API error: " +:+ msg
                     | Exception msg => "Server error: " +:+ msg
                     end))]
    500.
Proof.
  intros Hcall He.
  destruct (chat_reply_after_call data w u Hcall) as [remaining ->].
  rewrite (completion_err _ _ _ _ He). destruct e; reflexivity.
Qed.

Lemma chat_completion_raises_witness :
  reply (chat from_a (outage_world pi_day) ∅) =
  jsonify_code [("success", JBool false);
                ("error", JStr "Anthropic API error: overloaded")] 500.
Proof.
  apply (chat_completion_raises from_a (outage_world pi_day) ∅ (APIError "overloaded")).
  - do 3 eexists. vm_compute. right. right. left. reflexivity.
  - reflexivity.
Defined.

(** X13.  A completion that answers with an empty content list makes
    [content[0]] fail: the answer is the 500 body with
    ["Server error: list index out of range"], and a metered request has
    consumed one unit of today's quota all the same. *)
Theorem chat_empty_content (data : chat_data) (w : World) (u : gmap string Z) :
  reaches_provider (trace_of (chat data w u)) ->
  client_messages_create w (default 1024 (chat_max_tokens data))
    (default "" (chat_system data)) (default [] (chat_messages data)) = Ok [] ->
  reply (chat data w u) =
    jsonify_code [("success", JBool false);
                  ("error", JStr "Server error: list index out of range")] 500 /\
  (metered w data = true ->
   usage_of (chat data w u) !! usage_key (user_of data) (now w)
   = Some (default 0 (u !! usage_key (user_of data) (now w)) + 1)).
Proof.
  intros Hcall Hempty. split.
  - destruct (chat_reply_after_call data w u Hcall) as [remaining ->].
    unfold completion. now rewrite Hempty.
  - intros Hmet. revert Hcall.
    destruct (chat_cases data w u)
      as [[Hm Heq] | [(Hm & Hmet' & Heq) | [(_ & Hc & Heq) | (_ & Hc & Heq)]]];
      rewrite Heq; unfold usage_of, trace_of; simpl; intros Hcall.
    + destruct Hcall as (a & b & c & []).
    + congruence.
    + exfalso. now apply (lookup_trace_no_provider w (user_of data)).
    + now rewrite lookup_insert_eq.
Qed.

Lemma chat_empty_content_witness :
  reply (chat from_a (empty_content_world pi_day) ∅) =
    jsonify_code [("success", JBool false);
                  ("error", JStr "Server error: list index out of range")] 500 /\
  usage_of (chat from_a (empty_content_world pi_day) ∅) !! usage_key "a@x.com" pi_day
  = Some 1.
Proof.
  destruct (chat_empty_content from_a (empty_content_world pi_day) ∅) as [Hr Hu].
  - do 3 eexists. vm_compute. right. right. left. reflexivity.
  - reflexivity.
  - split; [exact Hr | exact (Hu eq_refl)].
Defined.

Lemma lookup_trace_plain (w : World) (email : string) :
  Forall (fun ev => is_completion_call ev = false /\ forall a, ev <> SessionCreate a)
         (lookup_trace w email).
Proof.
  apply Forall_forall. intros ev Hin. apply list_elem_of_In in Hin.
  apply lookup_trace_events in Hin as [x [-> | ->]]; split; try reflexivity; discriminate.
Qed.

(** X14.  A [chat] run calls the Completion Provider at most once, as its
    last action, and passes on the body as it came: the client's messages,
    its system prompt (the empty string when absent) and its token budget
    (1024 when absent).  Nothing before that call is a completion call or a
    checkout session. *)
Theorem chat_calls_provider_once (data : chat_data) (w : World) (u : gmap string Z) :
  exists before,
    Forall (fun ev => is_completion_call ev = false /\ forall a, ev <> SessionCreate a)
           before /\
    (trace_of (chat data w u) = before \/
     trace_of (chat data w u) =
     before ++ [MessagesCreate (default 1024 (chat_max_tokens data))
                  (default "" (chat_system data))
                  (default [] (chat_messages data))]).
Proof.
  destruct (chat_cases data w u)
    as [[Hm Heq] | [(Hm & Hmet & Heq) | [(Hmet & Hc & Heq) | (Hmet & Hc & Heq)]]];
    rewrite Heq; unfold trace_of; simpl.
  - exists []. split; [constructor | left; reflexivity].
  - exists (lookup_trace w (user_of data)).
    split; [apply lookup_trace_plain | right; reflexivity].
  - exists (lookup_trace w (user_of data)).
    split; [apply lookup_trace_plain | left; reflexivity].
  - eexists. split; [| right; reflexivity].
    apply Forall_app. split; [apply lookup_trace_plain |].
    constructor; [| constructor]. split; [reflexivity | discriminate].
Qed.

(** ** The usage counters over time *)

(** X15.  Counters of different users and of different days do not
    interfere: a [chat] request leaves untouched the entry of every pair of
    user and day other than its own, even when an email contains a colon or
    ends like a date. *)
Theorem chat_other_entries_untouched (data : chat_data) (w : World)
  (u : gmap string Z) (email : string) (d : datetime) :
  wf_datetime d -> wf_datetime (now w) ->
  email <> user_of data \/ d <> now w ->
  usage_of (chat data w u) !! usage_key email d = u !! usage_key email d.
Proof.
  intros Wd Ww Hne. rewrite chat_usage.
  destruct (metered w data && _); [| reflexivity].
  apply lookup_insert_ne. intros Heq.
  apply usage_key_inj in Heq as [E1 E2]; [| assumption | assumption].
  destruct Hne as [H | H]; congruence.
Qed.

Lemma chat_other_entries_untouched_witness :
  usage_of (chat (hello (Some "a@x.com:2025-03-14")) (free_world next_day)
              (user_usage_after (requests_of_a 3 (free_world pi_day))))
    !! usage_key "a@x.com" pi_day
  = Some 3.
Proof.
  rewrite (chat_other_entries_untouched (hello (Some "a@x.com:2025-03-14"))
             (free_world next_day)
             (user_usage_after (requests_of_a 3 (free_world pi_day)))
             "a@x.com" pi_day wf_pi_day wf_next_day).
  - vm_compute. reflexivity.
  - left. discriminate.
Defined.

(** What a request can do to the mapping. *)
Lemma handle_usage_step (req : request) (w : World) (u : gmap string Z) :
  usage_of (handle req w u) = u \/
  exists data,
    req = Chat data /\ metered w data = true /\
    default 0 (u !! usage_key (user_of data) (now w)) < 10 /\
    usage_of (handle req w u)
    = <[usage_key (user_of data) (now w) :=
          default 0 (u !! usage_key (user_of data) (now w)) + 1]> u.
Proof.
  destruct req as [data | data | data]; simpl.
  - left. apply create_checkout_usage.
  - left. apply check_subscription_usage.
  - rewrite chat_usage. destruct (metered w data) eqn:Hmet; simpl; [| now left].
    destruct (Z.ltb_spec (default 0 (u !! usage_key (user_of data) (now w))) 10);
      [| now left].
    right. exists data. auto.
Qed.

(** X16.  A request changes [user_usage] in one way only, and the log of
    writes says so: either nothing is written and the mapping is left as it
    was, or the request is a metered chat request under the limit, the entry
    of its user and day goes up by exactly one (from an absent entry to 1),
    and that is the single write of the run. *)
Theorem handle_changes_one_entry (req : request) (w : World) (u : gmap string Z) :
  (usage_of (handle req w u) = u /\ ~ writes_usage (trace_of (handle req w u))) \/
  exists data,
    req = Chat data /\ metered w data = true /\
    default 0 (u !! usage_key (user_of data) (now w)) < 10 /\
    usage_of (handle req w u)
    = <[usage_key (user_of data) (now w) :=
          default 0 (u !! usage_key (user_of data) (now w)) + 1]> u /\
    forall key value,
      In (UsageStore key value) (trace_of (handle req w u)) <->
      key = usage_key (user_of data) (now w) /\
      value = default 0 (u !! usage_key (user_of data) (now w)) + 1.
Proof.
  destruct req as [data | data | data]; simpl.
  - left. split; [apply create_checkout_usage |].
    intros (k & v & H). apply create_checkout_trace_events in H as [a H]. discriminate.
  - left. split; [apply check_subscription_usage |].
    intros (k & v & H). apply check_subscription_trace_events in H as [x [H | H]];
      discriminate.
  - destruct (chat_cases data w u)
      as [[Hm Heq] | [(Hm & Hmet & Heq) | [(Hmet & Hc & Heq) | (Hmet & Hc & Heq)]]];
      rewrite Heq; unfold usage_of, trace_of; simpl.
    + left. split; [reflexivity |]. intros (k & v & []).
    + left. split; [reflexivity |]. intros (k & v & H).
      apply in_app_or in H as [H | [H | []]]; [| discriminate].
      apply (lookup_trace_no_write w (user_of data)). now exists k, v.
    + left. split; [reflexivity |]. apply lookup_trace_no_write.
    + right. exists data.
      split; [reflexivity |]. split; [assumption |]. split; [assumption |].
      split; [reflexivity |].
      intros key value. split.
      * intros H. apply in_app_or in H as [H | [H | []]]; [| discriminate].
        apply in_app_or in H as [H | [H | []]].
        -- exfalso. apply (lookup_trace_no_write w (user_of data)).
           now exists key, value.
        -- injection H as <- <-. auto.
      * intros [-> ->]. apply in_or_app. left. apply in_or_app. right. left. reflexivity.
Qed.

Lemma handle_lookup_mono (req : request) (w : World) (u : gmap string Z) (k : string) (v : Z) :
  u !! k = Some v ->
  exists v', usage_of (handle req w u) !! k = Some v' /\ v <= v'.
Proof.
  intros Hk.
  destruct (handle_usage_step req w u) as [-> | (data & _ & _ & _ & ->)].
  - exists v. split; [exact Hk | lia].
  - destruct (decide (usage_key (user_of data) (now w) = k)) as [<- | Hne].
    + rewrite lookup_insert_eq, Hk. simpl. eexists. split; [reflexivity | lia].
    + rewrite lookup_insert_ne by assumption. exists v. split; [exact Hk | lia].
Qed.

Lemma serve_lookup_mono (h : list (World * request)) :
  forall (u : gmap string Z) (k : string) (v : Z),
  u !! k = Some v ->
  exists v', snd (serve u h) !! k = Some v' /\ v <= v'.
Proof.
  induction h as [|[w req] rest IH]; intros u k v Hk.
  - exists v. split; [exact Hk | lia].
  - destruct (handle_lookup_mono req w u k v Hk) as (v1 & H1 & Hle1).
    destruct (IH _ k v1 H1) as (v2 & H2 & Hle2).
    exists v2. split; [exact H2 | lia].
Qed.

Lemma serve_app (h1 h2 : list (World * request)) :
  forall u : gmap string Z,
  snd (serve u (h1 ++ h2)) = snd (serve (snd (serve u h1)) h2).
Proof.
  induction h1 as [|[w req] rest IH]; intros u; [reflexivity |].
  simpl. apply IH.
Qed.

(** X17.  Nothing is ever evicted or refunded: an entry present after some
    history is still present after any continuation of it, its count has not
    gone down, and every count lies between 1 and 10 at all times. *)
Theorem usage_entries_persist (h1 h2 : list (World * request)) (k : string) (v : Z) :
  user_usage_after h1 !! k = Some v ->
  exists v',
    user_usage_after (h1 ++ h2) !! k = Some v' /\ 1 <= v /\ v <= v' /\ v' <= 10.
Proof.
  intros Hk. unfold user_usage_after. rewrite serve_app.
  destruct (serve_lookup_mono h2 _ k v Hk) as (v' & Hk' & Hle).
  exists v'. split; [exact Hk' |].
  pose proof (user_usage_bounded h1 k v Hk) as Hb1.
  assert (Hb2 : 1 <= v' <= 10).
  { apply (serve_bounded h2 (snd (serve ∅ h1)) (user_usage_bounded h1) k v' Hk'). }
  lia.
Qed.

Lemma usage_entries_persist_witness :
  user_usage_after (requests_of_a 3 (free_world pi_day)) !! usage_key "a@x.com" pi_day
    = Some 3 /\
  exists v',
    user_usage_after (requests_of_a 3 (free_world pi_day)
                        ++ requests_of_a 20 (outage_world next_day))
      !! usage_key "a@x.com" pi_day = Some v' /\ 3 <= v'.
Proof.
  assert (H : user_usage_after (requests_of_a 3 (free_world pi_day))
                !! usage_key "a@x.com" pi_day = Some 3) by (vm_compute; reflexivity).
  split; [exact H |].
  destruct (usage_entries_persist (requests_of_a 3 (free_world pi_day))
              (requests_of_a 20 (outage_world next_day)) _ _ H) as (v' & Hv & _ & Hle & _).
  exists v'. split; [exact Hv | exact Hle].
Defined.

Lemma provider_called_spec (t : list event) :
  provider_called t = true <-> reaches_provider t.
Proof.
  unfold provider_called, reaches_provider. rewrite existsb_exists. split.
  - intros (ev & Hin & Hev). destruct ev; try discriminate. eauto.
  - intros (a & b & c & Hin). eexists. split; [exact Hin | reflexivity].
Qed.

(** What one metered request does to its own counter. *)
Lemma chat_metered_step (data : chat_data) (w : World) (u : gmap string Z) :
  metered w data = true ->
  provider_called (trace_of (chat data w u))
    = (default 0 (u !! usage_key (user_of data) (now w)) <? 10) /\
  default 0 (usage_of (chat data w u) !! usage_key (user_of data) (now w))
    = default 0 (u !! usage_key (user_of data) (now w))
      + (if default 0 (u !! usage_key (user_of data) (now w)) <? 10 then 1 else 0) /\
  (status (reply (chat data w u)) = 200 ->
   provider_called (trace_of (chat data w u)) = true).
Proof.
  intros Hmet.
  destruct (chat_cases data w u)
    as [[Hm Heq] | [(Hm & Hmet' & Heq) | [(_ & Hc & Heq) | (_ & Hc & Heq)]]].
  - apply metered_true in Hmet as [Hm' _]. congruence.
  - congruence.
  - rewrite Heq. unfold reply, usage_of, trace_of; simpl.
    destruct (Z.ltb_spec (default 0 (u !! usage_key (user_of data) (now w))) 10); [lia |].
    split.
    + destruct (provider_called _) eqn:E; [| reflexivity].
      apply provider_called_spec in E.
      exfalso. now apply (lookup_trace_no_provider w (user_of data)).
    + split; [lia | discriminate].
  - rewrite Heq. unfold reply, usage_of, trace_of; simpl.
    destruct (Z.ltb_spec (default 0 (u !! usage_key (user_of data) (now w))) 10); [| lia].
    assert (Hp : provider_called
              ((lookup_trace w (user_of data)
                  ++ [UsageStore (usage_key (user_of data) (now w))
                        (default 0 (u !! usage_key (user_of data) (now w)) + 1)])
                 ++ [completion_call data]) = true)
      by (apply provider_called_spec, reaches_provider_snoc).
    rewrite Hp, lookup_insert_eq. simpl. auto.
Qed.

Lemma metered_runs_count (email : string) (d : datetime) (h : list (World * request)) :
  forall u : gmap string Z,
  wf_datetime d -> wf_history h ->
  metered_runs (fun _ t => provider_called t) email d u h
  = default 0 (snd (serve u h) !! usage_key email d) - default 0 (u !! usage_key email d) /\
  0 <= metered_runs (fun r _ => status r =? 200) email d u h
    <= metered_runs (fun _ t => provider_called t) email d u h.
Proof.
  induction h as [|[w req] rest IH]; intros u Wd Wh.
  - simpl. lia.
  - apply Forall_cons in Wh as [Ww Wrest]. simpl in Ww.
    specialize (IH (usage_of (handle req w u)) Wd Wrest).
    destruct IH as [IHc IHs].
    change (snd (serve u ((w, req) :: rest)))
      with (snd (serve (usage_of (handle req w u)) rest)).
    destruct req as [data | data | data].
    + simpl in *. rewrite create_checkout_usage in *. lia.
    + simpl in *. rewrite check_subscription_usage in *. lia.
    + cbn [metered_runs handle] in *.
      destruct (metered w data) eqn:Hmet; simpl.
      2:{ pose proof (chat_usage_lookup email d data w u Wd Ww) as Hl.
          rewrite Hmet in Hl. simpl in Hl. lia. }
      destruct (decide (user_of data = email /\ now w = d)) as [[<- <-] | Hne].
      * rewrite !bool_decide_eq_true_2 by reflexivity. simpl.
        destruct (chat_metered_step data w u Hmet) as (Hp & Hl & H200).
        rewrite Hp.
        destruct (default 0 (u !! usage_key (user_of data) (now w)) <? 10) eqn:E.
        -- destruct (status (reply (chat data w u)) =? 200); lia.
        -- destruct (Z.eqb_spec (status (reply (chat data w u))) 200) as [E200 | _];
             [| lia].
           apply H200 in E200. congruence.
      * assert (Hb : bool_decide (user_of data = email) && bool_decide (now w = d) = false).
        { apply andb_false_iff. rewrite !bool_decide_eq_false.
          destruct (decide (user_of data = email)); [right | left]; tauto. }
        rewrite Hb. simpl.
        pose proof (chat_usage_lookup email d data w u Wd Ww) as Hl.
        rewrite Hmet in Hl. simpl in Hl. rewrite Hb in Hl. simpl in Hl. lia.
Qed.

(** X18.  However the requests of a day are spread, interleaved with other
    users or answered with errors, a non-subscribed user gets at most ten
    completion calls that day: the number of the user's metered requests
    that reached the Completion Provider is the stored count, which is
    [min 10] of the metered requests made, and the successful answers among
    them are no more than that. *)
Theorem completions_per_day (email : string) (d : datetime) (h : list (World * request)) :
  wf_datetime d -> wf_history h ->
  completions_of email d h = default 0 (user_usage_after h !! usage_key email d) /\
  completions_of email d h = Z.min 10 (metered_requests email d h) /\
  0 <= successes_of email d h /\
  successes_of email d h <= completions_of email d h /\
  completions_of email d h <= 10.
Proof.
  intros Wd Wh. unfold completions_of, successes_of.
  destruct (metered_runs_count email d h ∅ Wd Wh) as [Hc Hs].
  fold (user_usage_after h) in Hc. rewrite lookup_empty in Hc. simpl in Hc.
  pose proof (user_usage_after_lookup email d h Wd Wh) as Hl.
  lia.
Qed.

Lemma completions_per_day_witness :
  metered_requests "a@x.com" pi_day
    (requests_of_a 7 (outage_world pi_day) ++ requests_of_a 8 (free_world pi_day)) = 15 /\
  completions_of "a@x.com" pi_day
    (requests_of_a 7 (outage_world pi_day) ++ requests_of_a 8 (free_world pi_day)) = 10 /\
  successes_of "a@x.com" pi_day
    (requests_of_a 7 (outage_world pi_day) ++ requests_of_a 8 (free_world pi_day)) = 3.
Proof.
  split; [vm_compute; reflexivity |].
  split; [| vm_compute; reflexivity].
  destruct (completions_per_day "a@x.com" pi_day
              (requests_of_a 7 (outage_world pi_day) ++ requests_of_a 8 (free_world pi_day))
              wf_pi_day) as (_ & H & _).
  - apply Forall_app. split; apply wf_history_replicate, wf_pi_day.
  - rewrite H. vm_compute. reflexivity.
Defined.

(** ** Input validation and caller-supplied identity *)

(** X19.  Validation comes first: a body whose [messages] key is absent or
    holds the empty list is answered 400 ["No messages provided"] before
    anything else happens.  No subscription lookup, no quota check, no
    completion call, no change of [user_usage], whoever the user is and
    whatever the count. *)
Theorem chat_validation_first (data : chat_data) (w : World) (u : gmap string Z) :
  chat_messages data = None \/ chat_messages data = Some [] ->
  chat data w u = (jsonify_code [("error", JStr "No messages provided")] 400, u, []).
Proof.
  intros H. apply chat_no_messages. unfold has_messages.
  destruct H as [-> | ->]; reflexivity.
Qed.

Lemma chat_validation_first_witness :
  chat (ChatData (Some []) None None (Some "a@x.com")) (stripe_down_world pi_day)
       (user_usage_after (requests_of_a 10 (free_world pi_day)))
  = (jsonify_code [("error", JStr "No messages provided")] 400,
     user_usage_after (requests_of_a 10 (free_world pi_day)), []).
Proof.
  apply (chat_validation_first (ChatData (Some []) None None (Some "a@x.com"))).
  right. reflexivity.
Defined.

Lemma letters_length (n : nat) : String.length (letters n) = n.
Proof. induction n as [|n IH]; simpl; [reflexivity | now rewrite IH]. Qed.

Lemma unused_email_fresh (u : gmap string Z) (d : datetime) :
  u !! usage_key (unused_email u) d = None.
Proof.
  destruct (u !! usage_key (unused_email u) d) as [v|] eqn:E; [| reflexivity].
  exfalso.
  apply elem_of_map_to_list in E.
  assert (Hin : String.length (usage_key (unused_email u) d)
                ∈ (String.length ∘ fst <$> map_to_list u)).
  { apply list_elem_of_fmap. eexists. split; [| exact E]. reflexivity. }
  apply max_list_elem_of_le in Hin.
  unfold usage_key in Hin. rewrite length_append in Hin.
  unfold unused_email in Hin. rewrite letters_length in Hin. lia.
Qed.

(** X20.  The quota is bound to the caller-supplied [user_email] and to
    nothing else: whatever the counters hold, there is an email, not
    ["anonymous"], under which the next request passes the gate with nine
    messages left, as long as the directory shows no active subscription
    for it. *)
Theorem quota_follows_supplied_email (w : World) (u : gmap string Z) :
  (forall email, lookup_active w email = false) ->
  exists email,
    email <> "anonymous" /\
    fst (fst (access_gate email w u)) = Value (JNum 9) /\
    forall data, user_of data = email -> has_messages data = true ->
      reaches_provider (trace_of (chat data w u)) /\
      forall text, completion_succeeds w data text ->
        reply (chat data w u) = chat_success text (JNum 9).
Proof.
  intros Hs. exists (unused_email u).
  assert (Ha : unused_email u <> "anonymous") by (unfold unused_email; simpl; discriminate).
  pose proof (unused_email_fresh u (now w)) as Hf.
  split; [exact Ha |]. split.
  - pose proof Ha as Hb. apply String.eqb_neq in Hb.
    rewrite access_gate_admit; [| exact Hb | apply Hs | rewrite Hf; simpl; lia].
    rewrite Hf. reflexivity.
  - intros data Hd Hm. rewrite <- Hd in Ha, Hf.
    rewrite chat_admit; [| exact Hm | exact Ha | apply Hs | rewrite Hf; simpl; lia].
    rewrite Hf. unfold reply, trace_of; simpl.
    split; [apply reaches_provider_snoc |].
    intros text Hok. now apply completion_ok.
Qed.

Lemma quota_follows_supplied_email_witness :
  exists email,
    email <> "anonymous" /\
    fst (fst (access_gate email (free_world pi_day)
                (user_usage_after (requests_of_a 10 (free_world pi_day)))))
    = Value (JNum 9).
Proof.
  destruct (quota_follows_supplied_email (free_world pi_day)
              (user_usage_after (requests_of_a 10 (free_world pi_day))))
    as (email & Ha & Hg & _).
  - intros email. reflexivity.
  - exists email. split; [exact Ha | exact Hg].
Defined.
